(** * Nebula location finder (script.py): a shallow embedding and its properties

    The script asks for an observer location, an observation time and a
    nebula, hands the three to astropy for the equatorial-to-horizontal
    transform and reports altitude, azimuth, a compass direction, a
    visibility tier and a rough rise time.

    What is embedded here is the script's own code: the two classifiers
    ([calculate_visibility], [get_compass_direction]), the rise-time
    estimate of [main], and the console dialogues ([get_location_by_city],
    [get_location_by_coordinates], [get_user_location], [get_user_time] and
    the nebula prompt of [main]).

    Conventions.
    - A Python [float] is an IEEE binary64 number: Rocq's primitive [float],
      whose operations are specified by [FloatAxioms] against [SpecFloat].
    - A Python [int] is a [Z]; a [str] is a [string] of bytes (ASCII input).
    - A call that may raise returns [result A = exn + A]; [try/except] is a
      match on the exception.
    - The console is interactive: a dialogue is run against the list of
      lines the user types, and it reports the events it produced (prompts,
      printed lines, geocoder calls).  When the typed lines run out the
      program is waiting at a prompt ([Pending]). *)

From Stdlib Require Import ZArith QArith Qabs Floats List String Ascii Bool Lia.
From Stdlib Require Import DecimalString Permutation.
Import ListNotations.

#[local] Set Warnings "-inexact-float".
#[local] Open Scope Z_scope.

(** ** Python values, exceptions and builtins *)

Module Py.

(** The exception classes a builtin used by the script can raise. *)
Inductive exn : Type :=
| ValueError
| OverflowError
| IndexError.

(** [str(e)], as far as the script can observe it: no handler of the
    embedded code ever prints the message of one of these (see
    [strptime_raises_ValueError] below), so only the class is kept. *)
Definition str (e : exn) : string :=
  match e with
  | ValueError => "ValueError"
  | OverflowError => "OverflowError"
  | IndexError => "IndexError"
  end.

Definition result (A : Type) : Type := (exn + A)%type.

Definition ok {A : Type} (a : A) : result A := inr a.
Definition raise {A : Type} (e : exn) : result A := inl e.

Definition bind {A B : Type} (r : result A) (k : A -> result B) : result B :=
  match r with
  | inl e => inl e
  | inr a => k a
  end.

(** *** Floats *)

(** [x > y] on floats: false as soon as one side is a NaN. *)
Definition gt (x y : float) : bool := PrimFloat.ltb y x.

(** [x <= y] on floats. *)
Definition le (x y : float) : bool := PrimFloat.leb x y.

(** [math.isfinite(x)]: neither a NaN nor an infinity. *)
Definition isfinite (x : float) : bool :=
  negb (PrimFloat.is_nan x) && negb (PrimFloat.is_infinity x).

(** The same on the specification side: a zero or a finite number. *)
Definition SF_isfinite (x : spec_float) : bool :=
  match x with
  | S754_zero _ | S754_finite _ _ _ => true
  | _ => false
  end.

(** [max(a, b)] with two positional arguments: the first one is kept unless
    a later one compares strictly greater. *)
Definition max (a b : float) : float := if gt b a then b else a.

(** The exact rational value of a float (0 for a NaN or an infinity). *)
Definition SF2Q (x : spec_float) : Q :=
  match x with
  | S754_finite s m e =>
      let v := match e with
               | Zneg p => Qmake (Zpos m) (2 ^ p)%positive
               | _ => inject_Z (Zpos m * 2 ^ e)
               end in
      if s then Qopp v else v
  | _ => 0%Q
  end.

Definition value (x : float) : Q := SF2Q (Prim2SF x).

(** Rounding of the positive number [m * 2^e] to an integer, ties to even. *)
Definition round_half_even (m : positive) (e : Z) : Z :=
  match e with
  | Zneg p =>
      let d := 2 ^ Zpos p in
      let q := Zpos m / d in
      let r := Zpos m mod d in
      match 2 * r ?= d with
      | Lt => q
      | Gt => q + 1
      | Eq => if Z.even q then q else q + 1
      end
  | _ => Zpos m * 2 ^ e
  end.

(** [round(x)] with one argument: the nearest integer, ties to even;
    [ValueError] on a NaN and [OverflowError] on an infinity. *)
Definition round (x : float) : result Z :=
  match Prim2SF x with
  | S754_nan => raise ValueError
  | S754_infinity _ => raise OverflowError
  | S754_zero _ => ok 0
  | S754_finite s m e =>
      ok (if s then - round_half_even m e else round_half_even m e)
  end.

(** *** Lists *)

(** [l[i]] on a list: negative indices count from the end, anything outside
    [-len, len) raises [IndexError]. *)
Definition getitem {A : Type} (l : list A) (i : Z) : result A :=
  let n := Z.of_nat (List.length l) in
  let j := if i <? 0 then i + n else i in
  if (0 <=? j) && (j <? n) then
    match nth_error l (Z.to_nat j) with
    | Some a => ok a
    | None => raise IndexError
    end
  else raise IndexError.

(** *** Strings *)

Definition nl : string := String "010"%char EmptyString.

(** [s * n]. *)
Fixpoint str_mul (s : string) (n : nat) : string :=
  match n with
  | O => EmptyString
  | S n' => (s ++ str_mul s n')%string
  end.

Definition code (c : ascii) : Z := Z.of_nat (nat_of_ascii c).

(** [c.isspace()] on ASCII: tab to carriage return, the four separators
    0x1c-0x1f, and the space. *)
Definition isspace (c : ascii) : bool :=
  ((9 <=? code c) && (code c <=? 13))
  || ((28 <=? code c) && (code c <=? 31))
  || (code c =? 32).

Definition isdigit (c : ascii) : bool := (48 <=? code c) && (code c <=? 57).

Definition digit (c : ascii) : Z := code c - 48.

Definition lower (c : ascii) : ascii :=
  if (65 <=? code c) && (code c <=? 90)
  then ascii_of_nat (nat_of_ascii c + 32) else c.

Fixpoint lstrip (s : string) : string :=
  match s with
  | String c s' => if isspace c then lstrip s' else s
  | EmptyString => EmptyString
  end.

Fixpoint rstrip (s : string) : string :=
  match s with
  | EmptyString => EmptyString
  | String c s' =>
      match rstrip s' with
      | EmptyString => if isspace c then EmptyString else String c EmptyString
      | t => String c t
      end
  end.

(** [s.strip()]. *)
Definition strip (s : string) : string := rstrip (lstrip s).

(** The whitespace that [int] and [float] skip around a literal is C's
    [isspace]: tab to carriage return, and the space.  The separators
    0x1c-0x1f, which [str.strip] removes, are not part of it. *)
Definition isspace_c (c : ascii) : bool :=
  ((9 <=? code c) && (code c <=? 13)) || (code c =? 32).

Fixpoint lstrip_c (s : string) : string :=
  match s with
  | String c s' => if isspace_c c then lstrip_c s' else s
  | EmptyString => EmptyString
  end.

Fixpoint rstrip_c (s : string) : string :=
  match s with
  | EmptyString => EmptyString
  | String c s' =>
      match rstrip_c s' with
      | EmptyString => if isspace_c c then EmptyString else String c EmptyString
      | t => String c t
      end
  end.

Definition strip_c (s : string) : string := rstrip_c (lstrip_c s).

(** The longest decimal literal [int] converts, in digits (CPython's default
    [sys.get_int_max_str_digits()]); leading zeros count, the sign and the
    underscores do not. *)
Definition max_str_digits : nat := 4300.

(** A run [digit (["_"] digit)*] at the head of [s]: the number read so far,
    how many digits it has, and what follows; [None] on a misplaced
    underscore.  [prev] tells whether the previous character was a digit. *)
Fixpoint digitpart (s : string) (acc : Z) (n : nat) (prev : bool)
  : option (Z * nat * string) :=
  match s with
  | EmptyString => Some (acc, n, EmptyString)
  | String c r =>
      if isdigit c then digitpart r (10 * acc + digit c) (S n) true
      else if Ascii.eqb c "_" then
        match r with
        | String c' _ =>
            if prev && isdigit c' then digitpart r acc n false else None
        | EmptyString => None
        end
      else Some (acc, n, s)
  end.

(** An optional sign at the head of [s]: [true] for a minus. *)
Definition sign (s : string) : bool * string :=
  match s with
  | String "-" r => (true, r)
  | String "+" r => (false, r)
  | _ => (false, s)
  end.

(** [int(s)] on a string, base 10. *)
Definition int (s : string) : result Z :=
  let (neg, body) := sign (strip_c s) in
  match digitpart body 0 O false with
  | Some (v, S n, EmptyString) =>
      if (S n <=? max_str_digits)%nat then ok (if neg then - v else v)
      else raise ValueError
  | _ => raise ValueError
  end.

(** The binary64 number nearest to [m * 10^x] (ties to even), for [m > 0]. *)
Definition decimal_to_SF (m : positive) (x : Z) : spec_float :=
  match x with
  | Zneg p =>
      let '(q, e, l) := SFdiv_core_binary prec emax (Zpos m) 0 (Zpos (10 ^ p)) 0 in
      binary_round_aux prec emax false q e l
  | _ => binary_normalize prec emax (Zpos m * 10 ^ x) 0 false
  end.

Definition decimal_to_float (neg : bool) (m : Z) (x : Z) : float :=
  let f := match m with
           | Zpos p => SF2Prim (decimal_to_SF p x)
           | _ => PrimFloat.zero
           end in
  if neg then PrimFloat.opp f else f.

(** The exponent part of a float literal, when there is one. *)
Definition exponent (s : string) : option (Z * string) :=
  match s with
  | String c r =>
      if Ascii.eqb (lower c) "e" then
        let (neg, body) := sign r in
        match digitpart body 0 O false with
        | Some (v, S _, rest) => Some (if neg then - v else v, rest)
        | _ => None
        end
      else Some (0, s)
  | EmptyString => Some (0, s)
  end.

Definition map_lower (s : string) : string :=
  string_of_list_ascii (List.map lower (list_ascii_of_string s)).

(** [float(s)] on a string: surrounding whitespace, a sign, then [inf],
    [infinity] or [nan] in any case, or a decimal literal with an optional
    fraction and exponent. *)
Definition float (s : string) : result float :=
  let (neg, body) := sign (strip_c s) in
  let word := map_lower body in
  if String.eqb word "inf" || String.eqb word "infinity" then
    ok (if neg then PrimFloat.neg_infinity else PrimFloat.infinity)
  else if String.eqb word "nan" then ok PrimFloat.nan
  else
    match digitpart body 0 O false with
    | Some (i, ni, r1) =>
        let frac := match r1 with
                    | String "." r => digitpart r i O false
                    | _ => Some (i, O, r1)
                    end in
        match frac with
        | Some (m, nf, r2) =>
            match (ni + nf)%nat, exponent r2 with
            | S _, Some (x, EmptyString) =>
                ok (decimal_to_float neg m (x - Z.of_nat nf))
            | _, _ => raise ValueError
            end
        | None => raise ValueError
        end
    | None => raise ValueError
    end.

End Py.

Notation "x <- r ;; k" := (Py.bind r (fun x => k))
  (at level 100, r at next level, right associativity).

#[local] Open Scope float_scope.
#[local] Open Scope string_scope.

(** ** The classifiers (script.py, lines 225-244) *)

Definition calculate_visibility (altitude : float) : string :=
  if Py.gt altitude 30 then
    "Excellent - High in the sky, ideal for observation"
  else if Py.gt altitude 15 then
    "Good - Reasonably high for observation"
  else if Py.gt altitude 5 then
    "Fair - Low in the sky, atmospheric effects noticeable"
  else if Py.gt altitude 0 then
    "Poor - Very low, near horizon. Wait for better time."
  else
    "Not visible - Below horizon".

Definition compass_points : list string :=
  ["N"; "NNE"; "NE"; "ENE"; "E"; "ESE"; "SE"; "SSE";
   "S"; "SSW"; "SW"; "WSW"; "W"; "WNW"; "NW"; "NNW"].

Definition get_compass_direction (azimuth : float) : Py.result string :=
  r <- Py.round (azimuth / 22.5) ;;
  let compass_idx := (r mod 16)%Z in
  Py.getitem compass_points compass_idx.

(** ** The rise-time estimate (script.py, line 358)

    [hours_till_rise = max((0 - alt) / 15, 0.1)], computed by [main] in the
    branch taken when [alt > 0] is false. *)

Definition hours_till_rise (alt : float) : float :=
  Py.max ((0 - alt) / 15) 0.1.

(** The guard [if hours_till_rise > 0] under which [main] prints the
    estimated rise time (script.py, line 359). *)
Definition rise_time_is_reported (alt : float) : bool :=
  Py.gt (hours_till_rise alt) 0.

#[local] Close Scope float_scope.
#[local] Open Scope Z_scope.

(** ** Dates and instants

    [datetime.strptime] is Python's, [Time] is astropy's: neither is code of
    the script.  A [datetime] is kept as its calendar fields; an astropy
    [Time] is the instant it denotes, counted in microseconds from
    1970-01-01 00:00:00 UTC; [u.hour] is one hour on that scale. *)

Module u.
Definition hour : Z := 3600 * 1000000.
End u.

Definition Time : Type := Z.

Module Datetime.

Inductive tz : Type := UTC.

Record t : Type := mk {
  year : Z; month : Z; day : Z;
  hour : Z; minute : Z; second : Z;
  tzinfo : option tz
}.

(** [dt.replace(tzinfo=zone)]. *)
Definition replace_tzinfo (dt : t) (zone : tz) : t :=
  mk (year dt) (month dt) (day dt) (hour dt) (minute dt) (second dt) (Some zone).

Definition is_leap (y : Z) : bool :=
  (y mod 4 =? 0) && (negb (y mod 100 =? 0) || (y mod 400 =? 0)).

Definition days_in_month (y m : Z) : Z :=
  if (m =? 2) && is_leap y then 29
  else nth (Z.to_nat m) [0; 31; 28; 31; 30; 31; 30; 31; 31; 30; 31; 30; 31] 0.

Definition days_before_year (y : Z) : Z :=
  let p := y - 1 in p * 365 + p / 4 - p / 100 + p / 400.

Definition days_before_month (y m : Z) : Z :=
  nth (Z.to_nat m) [0; 0; 31; 59; 90; 120; 151; 181; 212; 243; 273; 304; 334] 0
  + (if (2 <? m) && is_leap y then 1 else 0).

(** The proleptic Gregorian ordinal of a date: 1 for 0001-01-01. *)
Definition ymd2ord (y m d : Z) : Z :=
  days_before_year y + days_before_month y m + d.

(** What the [datetime] constructor accepts. *)
Definition valid (y m d hh mm ss : Z) : bool :=
  (1 <=? y) && (y <=? 9999) && (1 <=? m) && (m <=? 12)
  && (1 <=? d) && (d <=? days_in_month y m)
  && (0 <=? hh) && (hh <=? 23) && (0 <=? mm) && (mm <=? 59)
  && (0 <=? ss) && (ss <=? 59).

(** *** [strptime(s, "%Y-%m-%d %H:%M:%S")]

    The format is compiled to the regular expression
    [(\d\d\d\d)-(1[0-2]|0[1-9]|[1-9])-(3[01]|[12]\d|0[1-9]|[1-9]| [1-9])\s+
     (2[0-3]|[0-1]\d|\d):([0-5]\d|\d):(6[0-1]|[0-5]\d|\d)]
    and matched at the start of the string, alternatives in order, with
    backtracking.  Each piece below lists its matches in that order, each
    with the text left over. *)

Definition within (lo hi : Z) (c : ascii) : bool :=
  (lo <=? Py.digit c) && (Py.digit c <=? hi) && Py.isdigit c.

Definition one (p : ascii -> bool) (s : string) : list (Z * string) :=
  match s with
  | String a r => if p a then [(Py.digit a, r)] else []
  | _ => []
  end.

Definition two (p1 p2 : ascii -> bool) (s : string) : list (Z * string) :=
  match s with
  | String a (String b r) =>
      if p1 a && p2 b then [(10 * Py.digit a + Py.digit b, r)] else []
  | _ => []
  end.

Definition lit (c : ascii) (s : string) : list string :=
  match s with
  | String a r => if Ascii.eqb a c then [r] else []
  | _ => []
  end.

(** [\s+], greedy: the longest run of whitespace first. *)
Fixpoint spaces (s : string) : list string :=
  match s with
  | String c r => if Py.isspace c then spaces r ++ [r] else []
  | EmptyString => []
  end.

Definition re_Y (s : string) : list (Z * string) :=
  match s with
  | String a (String b (String c (String d r))) =>
      if Py.isdigit a && Py.isdigit b && Py.isdigit c && Py.isdigit d
      then [(1000 * Py.digit a + 100 * Py.digit b + 10 * Py.digit c + Py.digit d, r)]
      else []
  | _ => []
  end.

Definition re_m (s : string) : list (Z * string) :=
  two (within 1 1) (within 0 2) s ++ two (within 0 0) (within 1 9) s
  ++ one (within 1 9) s.

Definition re_d (s : string) : list (Z * string) :=
  two (within 3 3) (within 0 1) s ++ two (within 1 2) Py.isdigit s
  ++ two (within 0 0) (within 1 9) s ++ one (within 1 9) s
  ++ flat_map (one (within 1 9)) (lit " " s).

Definition re_H (s : string) : list (Z * string) :=
  two (within 2 2) (within 0 3) s ++ two (within 0 1) Py.isdigit s
  ++ one Py.isdigit s.

Definition re_M (s : string) : list (Z * string) :=
  two (within 0 5) Py.isdigit s ++ one Py.isdigit s.

Definition re_S (s : string) : list (Z * string) :=
  two (within 6 6) (within 0 1) s ++ two (within 0 5) Py.isdigit s
  ++ one Py.isdigit s.

(** Every way the whole expression matches a prefix of [s], first match
    first: the six fields and the unconverted rest. *)
Definition matches (s : string) : list (Z * Z * Z * Z * Z * Z * string) :=
  flat_map (fun '(y, s1) =>
  flat_map (fun s2 =>
  flat_map (fun '(m, s3) =>
  flat_map (fun s4 =>
  flat_map (fun '(d, s5) =>
  flat_map (fun s6 =>
  flat_map (fun '(hh, s7) =>
  flat_map (fun s8 =>
  flat_map (fun '(mm, s9) =>
  flat_map (fun s10 =>
  List.map (fun '(ss, rest) => (y, m, d, hh, mm, ss, rest)) (re_S s10))
  (lit ":" s9)) (re_M s8)) (lit ":" s7)) (re_H s6)) (spaces s5)) (re_d s4))
  (lit "-" s3)) (re_m s2)) (lit "-" s1)) (re_Y s).

(** [ValueError] when the string does not match, when text remains after
    the match, and when the fields are not a date and time of the calendar. *)
Definition strptime (date_string : string) : Py.result t :=
  match matches date_string with
  | (y, m, d, hh, mm, ss, EmptyString) :: _ =>
      if valid y m d hh mm ss then Py.ok (mk y m d hh mm ss None)
      else Py.raise Py.ValueError
  | _ => Py.raise Py.ValueError
  end.

(** The offset from UTC of a datetime, in seconds: a naive one is read as
    UTC by astropy. *)
Definition utcoffset (dt : t) : Z :=
  match tzinfo dt with
  | Some UTC => 0
  | None => 0
  end.

End Datetime.

(** [Time(dt)]: the instant of a datetime. *)
Definition Time_of_datetime (dt : Datetime.t) : Time :=
  (((Datetime.ymd2ord (Datetime.year dt) (Datetime.month dt) (Datetime.day dt)
     - 719163) * 86400
    + Datetime.hour dt * 3600 + Datetime.minute dt * 60 + Datetime.second dt
    - Datetime.utcoffset dt) * 1000000)%Z.

(** ** The console *)

(** What the geocoding service (geopy's Nominatim) answers to a query. *)
Record Location : Type := {
  address : string;
  latitude : float;
  longitude : float
}.

Inductive geocoded : Type :=
| Found (location : Location)
| NotFound                       (* [geocode] returned [None] *)
| TimedOut                       (* raised [GeocoderTimedOut] *)
| ServiceError                   (* raised [GeocoderServiceError] or a subclass *)
| Failed (msg : string).         (* raised any other [Exception] *)

(** What a dialogue does to the outside, in order. *)
Inductive event : Type :=
| Print (line : string)
| Prompt (text : string)
| Geocode (query : string) (timeout : Z) (answer : geocoded).

(** How a dialogue ends: with a value and the typed lines it did not read,
    with an exception that escapes it, or waiting at a prompt. *)
Inductive outcome (A : Type) : Type :=
| Returned (a : A) (rest : list string)
| Raised (e : Py.exn) (rest : list string)
| Pending.

Arguments Returned {A} a rest.
Arguments Raised {A} e rest.
Arguments Pending {A}.

Definition run (A : Type) : Type := (list event * outcome A)%type.

(** The events [evs], then the run [r]. *)
Definition emit {A : Type} (evs : list event) (r : run A) : run A :=
  ((evs ++ fst r)%list, snd r).

(** The run [r], then [k] on its value and on the lines left. *)
Definition and_then {A B : Type} (r : run A) (k : A -> list string -> run B)
  : run B :=
  match snd r with
  | Returned a rest => emit (fst r) (k a rest)
  | Raised e rest => (fst r, Raised e rest)
  | Pending => (fst r, Pending)
  end.

Section Dialogues.

(** The world outside the script: the geocoding service, as the answer to
    the [calls]-th request for [query] within [timeout]; the clock read by
    [Time.now()]; and astropy's rendering [Time.iso]. *)
Variable geocode : nat -> string -> Z -> geocoded.
Variable now : Time.
Variable iso : Time -> string.

(** *** [get_location_by_city] (script.py, lines 93-123) *)

Fixpoint get_location_by_city_loop (calls : nat) (stdin : list string)
  : run (float * float) :=
  match stdin with
  | [] => ([Prompt "Location: "], Pending)
  | line :: rest =>
      let location_str := Py.strip line in
      emit [Prompt "Location: "]
        (if String.eqb location_str "" then
           ([Print "Using default location: New York, USA"],
            Returned (40.7128, -74.0060)%float rest)
         else
           let location := geocode calls location_str 10 in
           emit [Print "Geocoding your location...";
                 Geocode location_str 10 location]
             match location with
             | Found loc =>
                 ([Print ("Found: " ++ address loc)],
                  Returned (latitude loc, longitude loc) rest)
             | NotFound =>
                 emit [Print "Location not found. Please try again.";
                       Print "Try being more specific (add country name)"]
                   (get_location_by_city_loop (S calls) rest)
             | TimedOut | ServiceError =>
                 ([Print "Geocoding service error. Using default location: New York, USA"],
                  Returned (40.7128, -74.0060)%float rest)
             | Failed msg =>
                 ([Print ("Error: " ++ msg ++ ". Using default location: New York, USA")],
                  Returned (40.7128, -74.0060)%float rest)
             end)
  end.

Definition get_location_by_city (stdin : list string) : run (float * float) :=
  emit [Print (Py.nl ++ "Enter your location (you can be specific):");
        Print "Examples: 'New York, USA', 'Tokyo, Japan', 'London, UK'";
        Print "          'Paris, France', 'Sydney, Australia'"]
    (get_location_by_city_loop 0 stdin).

(** *** [get_location_by_coordinates] (script.py, lines 126-135) *)

(** [float(input(prompt))] inside the [try]: the value, or the handler's
    result on a [ValueError]. *)
Definition input_float (prompt : string) (stdin : list string)
  (k : float -> list string -> run (float * float)) : run (float * float) :=
  match stdin with
  | [] => ([Prompt prompt], Pending)
  | line :: rest =>
      emit [Prompt prompt]
        match Py.float line with
        | inr x => k x rest
        | inl Py.ValueError =>
            ([Print "Invalid input. Using default location."],
             Returned (40.7128, -74.0060)%float rest)
        | inl e => ([], Raised e rest)
        end
  end.

Definition get_location_by_coordinates (stdin : list string)
  : run (float * float) :=
  emit [Print (Py.nl ++ "Enter your coordinates:")]
    (input_float "Latitude (degrees, + for North, - for South): " stdin
       (fun lat rest =>
          input_float "Longitude (degrees, + for East, - for West): " rest
            (fun lon rest' => ([], Returned (lat, lon) rest')))).

(** *** [get_user_location] (script.py, lines 138-153) *)

Fixpoint location_choice (stdin : list string) : run string :=
  match stdin with
  | [] => ([Prompt "Enter 1 or 2: "], Pending)
  | line :: rest =>
      let choice := Py.strip line in
      emit [Prompt "Enter 1 or 2: "]
        (if String.eqb choice "1" || String.eqb choice "2" then
           ([], Returned choice rest)
         else emit [Print "Please enter 1 or 2."] (location_choice rest))
  end.

Definition get_user_location (stdin : list string) : run (float * float) :=
  emit [Print (Py.nl ++ "How would you like to enter your location?");
        Print "1. City and Country (e.g., 'Tokyo, Japan')";
        Print "2. Coordinates (latitude and longitude)"]
    (and_then (location_choice stdin) (fun choice rest =>
       if String.eqb choice "2" then get_location_by_coordinates rest
       else get_location_by_city rest)).

(** *** [get_user_time] (script.py, lines 156-195) *)

Fixpoint time_choice (stdin : list string) : run string :=
  match stdin with
  | [] => ([Prompt "Your choice (1, 2, or 3): "], Pending)
  | line :: rest =>
      let choice := Py.strip line in
      emit [Prompt "Your choice (1, 2, or 3): "]
        (if existsb (String.eqb choice) ["1"; "2"; "3"] then
           ([], Returned choice rest)
         else emit [Print "Please enter 1, 2, or 3."] (time_choice rest))
  end.

(** The loop of the branch [choice == "2"] (lines 172-183). *)
Fixpoint explicit_time (stdin : list string) : run Time :=
  match stdin with
  | [] => ([Prompt "Enter date and time (YYYY-MM-DD HH:MM:SS): "], Pending)
  | date_str :: rest =>
      emit [Prompt "Enter date and time (YYYY-MM-DD HH:MM:SS): "]
        match Datetime.strptime date_str with
        | inr naive_dt =>
            let aware_dt := Datetime.replace_tzinfo naive_dt Datetime.UTC in
            let obs_time := Time_of_datetime aware_dt in
            ([Print ("Using specified time: " ++ iso obs_time)],
             Returned obs_time rest)
        | inl Py.ValueError =>
            emit [Print "Invalid format. Please use YYYY-MM-DD HH:MM:SS format."]
              (explicit_time rest)
        | inl e =>
            emit [Print ("Error: " ++ Py.str e ++ ". Please try again.")]
              (explicit_time rest)
        end
  end.

Definition get_user_time (stdin : list string) : run Time :=
  emit [Print (Py.nl ++ Py.str_mul "=" 40);
        Print "TIME SELECTION";
        Print (Py.str_mul "=" 40);
        Print "1. Use current system time";
        Print "2. Enter a specific date and time";
        Print "3. Use tonight's observing time (8 PM local)"]
    (and_then (time_choice stdin) (fun choice rest =>
       if String.eqb choice "2" then explicit_time rest
       else if String.eqb choice "3" then
         let obs_time := now in
         let obs_time := obs_time + 12 * u.hour in
         ([Print "Using 8 PM local time for optimal night sky viewing...";
           Print ("Approximate evening time: " ++ iso obs_time)],
          Returned obs_time rest)
       else
         let obs_time := now in
         ([Print ("Using current time: " ++ iso obs_time)],
          Returned obs_time rest))).

(** *** The nebula prompt of [main] (script.py, lines 296-304) *)

Fixpoint choose_nebula (stdin : list string) : run Z :=
  match stdin with
  | [] => ([Prompt (Py.nl ++ "Enter the number of the nebula (1-13): ")], Pending)
  | line :: rest =>
      emit [Prompt (Py.nl ++ "Enter the number of the nebula (1-13): ")]
        match Py.int line with
        | inr choice =>
            if (1 <=? choice) && (choice <=? 13) then ([], Returned choice rest)
            else emit [Print "Please enter a number between 1 and 13."]
                   (choose_nebula rest)
        | inl Py.ValueError =>
            emit [Print "Invalid input. Please enter a number."]
              (choose_nebula rest)
        | inl e => ([], Raised e rest)
        end
  end.

End Dialogues.

(** ** Reading a trace *)

(** The requests sent to the geocoding service, each with its timeout and
    its answer. *)
Definition geocode_calls (evs : list event) : list (string * Z * geocoded) :=
  flat_map (fun ev => match ev with
                      | Geocode q t a => [(q, t, a)]
                      | _ => []
                      end) evs.

(** The prompts shown to the user. *)
Definition prompts (evs : list event) : list string :=
  flat_map (fun ev => match ev with
                      | Prompt text => [text]
                      | _ => []
                      end) evs.

(** The dialogue ended by an exception that nothing caught. *)
Definition fatal {A : Type} (r : run A) : Prop :=
  exists e rest, snd r = Raised e rest.

(** The three facts about one run of the loop: every request carries the
    timeout 10; a request answered by a timeout or a service error ends the
    run on the announced default location; no exception escapes. *)
Definition city_run_ok (r : run (float * float)) : Prop :=
  Forall (fun c => snd (fst c) = 10) (geocode_calls (fst r))
  /\ (forall q t a, In (q, t, a) (geocode_calls (fst r)) ->
      a = TimedOut \/ a = ServiceError ->
      exists evs rest,
        fst r = (evs ++ [Print "Geocoding service error. Using default location: New York, USA"])%list
        /\ snd r = Returned (40.7128, -74.0060)%float rest)
  /\ ~ fatal r.

(** ** More of Python's strings and formats *)

Module PyStr.

(** [sub in s] on strings. *)
Fixpoint contains (sub s : string) : bool :=
  String.prefix sub s
  || match s with
     | String _ r => contains sub r
     | EmptyString => false
     end.

(** The word at the head of [s], possibly empty, and the words after it. *)
Fixpoint split_from (s : string) : string * list string :=
  match s with
  | EmptyString => (EmptyString, [])
  | String c r =>
      let (w, ws) := split_from r in
      if Py.isspace c
      then (EmptyString, match w with EmptyString => ws | _ => w :: ws end)
      else (String c w, ws)
  end.

(** [s.split()]: the maximal runs of non-whitespace characters. *)
Definition split (s : string) : list string :=
  let (w, ws) := split_from s in
  match w with
  | EmptyString => ws
  | _ => w :: ws
  end.

(** [s[:n]]. *)
Definition slice_to (n : nat) (s : string) : string := String.substring 0 n s.

(** [s.lower()] on ASCII. *)
Definition lower (s : string) : string := Py.map_lower s.

(** [str(n)] on an integer. *)
Definition str_of_int (n : Z) : string := NilZero.string_of_int (Z.to_int n).

(** [width] minus the length of [s] spaces, none when [s] is too long. *)
Definition padding (width : nat) (s : string) : string :=
  Py.str_mul " " (width - String.length s).

(** [f"{n:<width>d}"]: an integer, right-justified. *)
Definition format_d (width : nat) (n : Z) : string :=
  (padding width (str_of_int n) ++ str_of_int n)%string.

(** [f"{s:<width>}"]: a string, left-justified. *)
Definition format_s (width : nat) (s : string) : string :=
  (s ++ padding width s)%string.

(** The last [d] decimal digits of [n], zero-padded. *)
Fixpoint fraction_digits (d : nat) (n : Z) : string :=
  match d with
  | O => EmptyString
  | S d' =>
      (fraction_digits d' (n / 10)
       ++ String (ascii_of_nat (48 + Z.to_nat (n mod 10))) EmptyString)%string
  end.

(** [f"{x:.<d>f}"]: the decimal with [d] fraction digits nearest to [x],
    ties to even; the sign of a negative number or zero is kept. *)
Definition format_f (d : nat) (x : float) : string :=
  let fixed (n : Z) : string :=
    (str_of_int (n / 10 ^ Z.of_nat d)
     ++ match d with
        | O => EmptyString
        | _ => "." ++ fraction_digits d n
        end)%string in
  match Prim2SF x with
  | S754_nan => "nan"
  | S754_infinity s => if s then "-inf" else "inf"
  | S754_zero s => ((if s then "-" else "") ++ fixed 0)%string
  | S754_finite s m e =>
      ((if s then "-" else "")
       ++ fixed (Py.round_half_even (m * Pos.of_nat (10 ^ d)) e))%string
  end.

End PyStr.

(** ** The catalogue (script.py, lines 10-90) *)

Module Nebula.
Record t : Type := mk {
  name : string;
  ra : string;
  dec : string;
  constellation : string
}.
End Nebula.

(** The dictionary [NEBULAE], as its items in source order. *)
Definition NEBULAE : list (Z * Nebula.t) :=
  [(1, Nebula.mk "Orion Nebula (M42)" "05h35m16.8s" "-05d23m15s" "Orion");
   (2, Nebula.mk "Ring Nebula (M57)" "18h53m35.097s" "+33d01m44.88s" "Lyra");
   (3, Nebula.mk "Dumbbell Nebula (M27)" "19h59m36.319s" "+22d43m16.312s" "Vulpecula");
   (4, Nebula.mk "Crab Nebula (M1)" "05h34m31.97s" "+22d00m52.1s" "Taurus");
   (5, Nebula.mk "North America Nebula (NGC 7000)" "20h59m17.1s" "+44d31m44s" "Cygnus");
   (6, Nebula.mk "Pelican Nebula (IC 5070)" "20h50m48.0s" "+44d20m60.0s" "Cygnus");
   (7, Nebula.mk "Veil Nebula (NGC 6960)" "20h45m38.0s" "+30d42m30s" "Cygnus");
   (8, Nebula.mk "Helix Nebula (NGC 7293)" "22h29m38.55s" "-20d50m13.6s" "Aquarius");
   (9, Nebula.mk "Lagoon Nebula (M8)" "18h03m37s" "-24d23m12s" "Sagittarius");
   (10, Nebula.mk "Trifid Nebula (M20)" "18h02m23s" "-23d01m48s" "Sagittarius");
   (11, Nebula.mk "Owl Nebula (M97)" "11h14m47.734s" "+55d01m08.50s" "Ursa Major");
   (12, Nebula.mk "Heart Nebula (IC 1805)" "02h32m36s" "+61d29m00s" "Cassiopeia");
   (13, Nebula.mk "Soul Nebula (IC 1848)" "02h51m36s" "+60d26m00s" "Cassiopeia")].

(** [d[key]] on a dictionary: [None] stands for [KeyError]. *)
Fixpoint dict_getitem {V : Type} (d : list (Z * V)) (key : Z) : option V :=
  match d with
  | [] => None
  | (k, v) :: d' => if k =? key then Some v else dict_getitem d' key
  end.

(** ** [display_nebula_info] (script.py, lines 198-222) *)

Definition display_nebula_info (nebula : Nebula.t) : list event :=
  let name := Nebula.name nebula in
  ([Print (Py.nl ++ Py.str_mul "=" 60);
    Print ("NEBULA INFORMATION: " ++ name);
    Print (Py.str_mul "=" 60);
    Print ("Constellation: " ++ Nebula.constellation nebula);
    Print ("Coordinates (J2000): RA " ++ Nebula.ra nebula
           ++ ", Dec " ++ Nebula.dec nebula)]
   ++ (if PyStr.contains "Orion" name then
         [Print (Py.nl ++ "Visibility: Brightest nebula, visible to naked eye!");
          Print "Best viewing: Winter months"]
       else if PyStr.contains "Ring" name || PyStr.contains "Dumbbell" name then
         [Print (Py.nl ++ "Type: Planetary nebula (remains of a dead star)");
          Print "Best viewed with: Telescope"]
       else if PyStr.contains "Crab" name then
         [Print (Py.nl ++ "Type: Supernova remnant (observed in 1054 AD)");
          Print "Contains: Pulsar at its center"]
       else if PyStr.contains "Lagoon" name || PyStr.contains "Trifid" name then
         [Print (Py.nl ++ "Best viewing: Summer months");
          Print "Location: In the Milky Way's center direction"]
       else if PyStr.contains "Helix" name then
         [Print (Py.nl ++ "Type: Closest planetary nebula to Earth");
          Print "Nickname: 'Eye of God'"]
       else [])
   ++ [Print (Py.str_mul "=" 60)])%list.

(** ** More of [main] *)

(** The longitude as shown on the "Coordinates" line (lines 260-263). *)
Definition lon_display (lon : float) : string :=
  if PrimFloat.ltb lon 0 then
    if PrimFloat.ltb lon 0 then PyStr.format_f 4 (- lon) ++ " W"
    else PyStr.format_f 4 lon ++ " E"
  else PyStr.format_f 4 lon ++ " E".

(** The menu of nebulae (lines 272-293). *)
Definition winter_nebulae : list Z := [1; 4; 11].
Definition summer_nebulae : list Z := [2; 5; 6; 7; 9; 10].
Definition autumn_nebulae : list Z := [3; 8; 12; 13].

(** One [for key in ...] loop of the menu: [None] when a key is missing
    from [NEBULAE]. *)
Fixpoint print_season (keys : list Z) : option (list event) :=
  match keys with
  | [] => Some []
  | key :: keys' =>
      match dict_getitem NEBULAE key with
      | None => None
      | Some neb =>
          option_map
            (cons (Print ("  " ++ PyStr.format_d 2 key ++ ". "
                          ++ PyStr.format_s 30 (Nebula.name neb)
                          ++ " (" ++ Nebula.constellation neb ++ ")")))
            (print_season keys')
      end
  end.

Definition print_menu : option (list event) :=
  match print_season winter_nebulae, print_season summer_nebulae,
        print_season autumn_nebulae with
  | Some w, Some s, Some a =>
      Some ([Print (Py.nl ++ Py.str_mul "=" 70);
             Print "AVAILABLE NEBULAS";
             Print (Py.str_mul "=" 70);
             Print (Py.nl ++ "WINTER/SPRING NEBULAS:")] ++ w
            ++ [Print (Py.nl ++ "SUMMER NEBULAS:")] ++ s
            ++ [Print (Py.nl ++ "AUTUMN NEBULAS:")] ++ a)%list
  | _, _, _ => None
  end.

(** The prompt loop and [selected = NEBULAE[choice]] (lines 296-306). *)
Definition select_nebula (stdin : list string)
  : list event * outcome (option Nebula.t) :=
  and_then (choose_nebula stdin) (fun choice rest =>
    ([], Returned (dict_getitem NEBULAE choice) rest)).

(** The name of the report file (line 370). *)
Definition report_filename (selected : Nebula.t) : Py.result string :=
  w <- Py.getitem (PyStr.split (Nebula.name selected)) 0 ;;
  Py.ok ("nebula_position_" ++ w ++ ".txt").

(** The answer to a yes/no question: [input(...).strip().lower() == 'y']
    (lines 368-369 and 386-387). *)
Definition said_yes (line : string) : bool :=
  String.eqb (PyStr.lower (Py.strip line)) "y".

Section Advice.

(** astropy once more: [Time.iso], and [Time + hours * u.hour] for a number
    of hours that is a float. *)
Variable iso : Time -> string.
Variable plus_hours : Time -> float -> Time.

(** What [main] prints after the visibility line (lines 343-362), and the
    exception that escapes the block, if any. *)
Definition position_advice (obs_time : Time) (alt : float)
  : list event * option Py.exn :=
  if Py.gt alt 0 then
    ((Print (if Py.gt alt 30 then "   * Perfect time for observation!"
             else if Py.gt alt 15 then "   * Good time to observe"
             else "   * Consider observing when it's higher in the sky")
      :: (if PrimFloat.ltb 0 alt && PrimFloat.ltb alt 20 then
            [Print (Py.nl ++ "Tip: This nebula would be better observed when");
             Print "     it's higher in the sky (above 30 degrees altitude)."]
          else []))%list,
     None)
  else
    let hours_till_rise := hours_till_rise alt in
    if Py.gt hours_till_rise 0 then
      let rise_time := plus_hours obs_time hours_till_rise in
      match Py.getitem (PyStr.split (iso rise_time)) 1 with
      | inr clock =>
          ([Print (Py.nl ++ "This nebula is currently below the horizon.");
            Print ("It will rise at approximately: "
                   ++ PyStr.slice_to 5 clock ++ " UTC");
            Print "Check again in a few hours!"],
           None)
      | inl e =>
          ([Print (Py.nl ++ "This nebula is currently below the horizon.")],
           Some e)
      end
    else
      ([Print (Py.nl ++ "This nebula is currently below the horizon.");
        Print "Check again in a few hours!"],
       None).

End Advice.

(** ** Yardsticks for the properties *)

(** The rank of a visibility message among the five tiers. *)
Definition tier_rank (visibility : string) : nat :=
  if String.prefix "Excellent" visibility then 4
  else if String.prefix "Good" visibility then 3
  else if String.prefix "Fair" visibility then 2
  else if String.prefix "Poor" visibility then 1
  else 0.

(** A date and time written the way the prompt asks for it. *)
Definition digit_char (k : Z) : ascii := ascii_of_nat (48 + Z.to_nat k).

Definition two_digits (n : Z) : string :=
  String (digit_char (n / 10)) (String (digit_char (n mod 10)) EmptyString).

Definition four_digits (n : Z) : string :=
  (two_digits (n / 100) ++ two_digits (n mod 100))%string.

Definition timestamp (y m d hh mm ss : Z) : string :=
  (four_digits y ++ "-" ++ two_digits m ++ "-" ++ two_digits d ++ " "
   ++ two_digits hh ++ ":" ++ two_digits mm ++ ":" ++ two_digits ss)%string.


(** * Properties *)

(** ** Binary64 facts

    Read off [SpecFloat], to which [FloatAxioms] ties the primitive
    operations: the order is antisymmetric, rounding keeps a bounded number
    bounded, and a division by a number of magnitude 2 or more does not
    overflow. *)

Section FloatFacts.

Lemma SFcompare_antisym (x y : spec_float) :
  SFcompare y x = option_map CompOpp (SFcompare x y).
Proof.
  destruct x as [sx|sx| |sx mx ex], y as [sy|sy| |sy my ey]; simpl; try reflexivity;
    try (destruct sx; reflexivity); try (destruct sy; reflexivity);
    try (destruct sx, sy; reflexivity).
  destruct sx, sy; simpl; try reflexivity;
    rewrite (Z.compare_antisym ex ey); destruct (ex ?= ey); simpl; try reflexivity;
    rewrite (ZC4 my mx); reflexivity.
Qed.

Lemma leb_true_ltb_false (x y : float) :
  PrimFloat.leb x y = true -> PrimFloat.ltb y x = false.
Proof.
  rewrite leb_spec, ltb_spec. unfold SFleb, SFltb.
  rewrite (SFcompare_antisym (Prim2SF x) (Prim2SF y)).
  destruct (SFcompare (Prim2SF x) (Prim2SF y)) as [[ | | ]|]; simpl; congruence.
Qed.

Lemma digits2_pos_bounds (p : positive) :
  2 ^ (Zpos (digits2_pos p) - 1) <= Zpos p < 2 ^ Zpos (digits2_pos p).
Proof.
  induction p as [p IH|p IH|]; simpl digits2_pos.
  - rewrite Pos2Z.inj_succ. replace (Z.succ (Zpos (digits2_pos p)) - 1) with (Z.succ (Zpos (digits2_pos p) - 1)) by lia.
    rewrite !Z.pow_succ_r by lia. lia.
  - rewrite Pos2Z.inj_succ. replace (Z.succ (Zpos (digits2_pos p)) - 1) with (Z.succ (Zpos (digits2_pos p) - 1)) by lia.
    rewrite !Z.pow_succ_r by lia. lia.
  - simpl. lia.
Qed.

Lemma Zdigits2_nonneg m : 0 <= Zdigits2 m.
Proof. destruct m; simpl; lia. Qed.

Lemma Zdigits2_lt m : 0 <= m -> m < 2 ^ Zdigits2 m.
Proof.
  destruct m as [|p|p]; simpl; intros H; try lia.
  apply digits2_pos_bounds.
Qed.

Lemma Zdigits2_le_of_lt m k : 0 <= m -> 0 <= k -> m < 2 ^ k -> Zdigits2 m <= k.
Proof.
  destruct m as [|p|p]; simpl; intros Hm Hk H; try lia.
  destruct (Z_le_gt_dec (Zpos (digits2_pos p)) k) as [|Hgt]; [assumption|exfalso].
  pose proof (digits2_pos_bounds p) as [Hlo _].
  assert (2 ^ k <= 2 ^ (Zpos (digits2_pos p) - 1)) by (apply Z.pow_le_mono_r; lia).
  lia.
Qed.

Lemma shr_1_m (mrs : shr_record) :
  0 <= shr_m mrs -> shr_m (shr_1 mrs) = shr_m mrs / 2.
Proof.
  destruct mrs as [m r s]; cbn [shr_m]. intros H.
  destruct m as [|[p|p|]|p]; cbn [shr_1 shr_m]; try lia; try reflexivity.
  - apply (Z.div_unique _ _ _ 1); lia.
  - apply (Z.div_unique _ _ _ 0); lia.
Qed.

Lemma pow2_xO (p : positive) : 2 ^ Zpos p~0 = 2 ^ Zpos p * 2 ^ Zpos p.
Proof. rewrite Pos2Z.inj_xO, <- Z.pow_add_r by lia. f_equal. lia. Qed.

Lemma pow2_xI (p : positive) : 2 ^ Zpos p~1 = 2 * (2 ^ Zpos p * 2 ^ Zpos p).
Proof.
  rewrite Pos2Z.inj_xI, <- Z.pow_add_r by lia.
  rewrite <- Z.pow_succ_r by lia. f_equal. lia.
Qed.

Lemma iter_pos_shr_1_m (p : positive) : forall mrs,
  0 <= shr_m mrs -> shr_m (iter_pos shr_1 p mrs) = shr_m mrs / 2 ^ Zpos p.
Proof.
  induction p as [p IH|p IH|]; intros mrs H; simpl iter_pos.
  - assert (H1 : 0 <= shr_m (shr_1 mrs)) by (rewrite shr_1_m by assumption; apply Z.div_pos; lia).
    rewrite IH; [rewrite IH by assumption|rewrite IH by assumption; apply Z.div_pos; lia].
    rewrite shr_1_m by assumption.
    rewrite !Z.div_div by lia. now rewrite pow2_xI.
  - rewrite IH; [rewrite IH by assumption|rewrite IH by assumption; apply Z.div_pos; lia].
    rewrite !Z.div_div by lia. now rewrite pow2_xO.
  - rewrite shr_1_m by assumption. reflexivity.
Qed.

Lemma fexp64 (e : Z) : fexp prec emax e = Z.max (e - 53) (-1074).
Proof. reflexivity. Qed.

Lemma shr_m_record_of_loc m l : shr_m (shr_record_of_loc m l) = m.
Proof. destruct l as [|[ | | ]]; reflexivity. Qed.

Lemma Zdigits2_div_pow2 m n :
  0 <= m -> 0 <= n -> Zdigits2 (m / 2 ^ n) <= Z.max 0 (Zdigits2 m - n).
Proof.
  intros Hm Hn.
  assert (Hp : 0 < 2 ^ n) by (apply Z.pow_pos_nonneg; lia).
  pose proof (Zdigits2_lt m Hm) as Hlt.
  pose proof (Zdigits2_nonneg m) as Hd.
  apply Zdigits2_le_of_lt; [apply Z.div_pos; lia|lia|].
  apply Z.div_lt_upper_bound; [lia|].
  destruct (Z_le_gt_dec n (Zdigits2 m)) as [Hle|Hgt].
  - rewrite Z.max_r by lia. rewrite <- Z.pow_add_r by lia.
    now replace (n + (Zdigits2 m - n)) with (Zdigits2 m) by lia.
  - rewrite Z.max_l by lia. rewrite Z.pow_0_r, Z.mul_1_r.
    assert (2 ^ Zdigits2 m <= 2 ^ n) by (apply Z.pow_le_mono_r; lia). lia.
Qed.

Lemma Zdigits2_succ m : 0 <= m -> Zdigits2 (m + 1) <= Zdigits2 m + 1.
Proof.
  intros Hm. pose proof (Zdigits2_lt m Hm). pose proof (Zdigits2_nonneg m).
  apply Zdigits2_le_of_lt; [lia|lia|].
  rewrite Z.pow_add_r, Z.pow_1_r by lia. lia.
Qed.

(** One [shr_fexp] step: the mantissa stays non-negative, and neither the
    exponent nor "digits + exponent" leaves the bounds they had. *)
Lemma shr_fexp_bounds m e l B :
  0 <= m -> e <= 971 -> Zdigits2 m + e <= B -> 971 <= B <= 1024 ->
  let r := shr_fexp prec emax m e l in
  0 <= shr_m (fst r) /\ snd r <= 971 /\ Zdigits2 (shr_m (fst r)) + snd r <= B.
Proof.
  intros Hm He Hd HB. unfold shr_fexp, shr. rewrite fexp64.
  pose proof (Zdigits2_nonneg m) as Hn.
  destruct (Z.max (Zdigits2 m + e - 53) (-1074) - e) as [|p|p] eqn:En; cbn [fst snd];
    rewrite ?shr_m_record_of_loc; try (repeat split; lia).
  rewrite iter_pos_shr_1_m by (rewrite shr_m_record_of_loc; assumption).
  rewrite shr_m_record_of_loc.
  pose proof (Zdigits2_div_pow2 m (Zpos p) Hm ltac:(lia)) as Hdiv.
  repeat split; try lia.
  apply Z.div_pos; [lia|apply Z.pow_pos_nonneg; lia].
Qed.

Lemma round_nearest_even_bounds m l :
  0 <= m -> 0 <= round_nearest_even m l /\ Zdigits2 (round_nearest_even m l) <= Zdigits2 m + 1.
Proof.
  intros Hm. pose proof (Zdigits2_succ m Hm).
  destruct l as [|[ | | ]]; cbn [round_nearest_even]; try destruct (Z.even m); split; lia.
Qed.

Lemma binary_round_aux_finite sx mx ex lx :
  0 <= mx -> ex <= 971 -> Zdigits2 mx + ex <= 1023 ->
  Py.SF_isfinite (binary_round_aux prec emax sx mx ex lx) = true.
Proof.
  intros Hm He Hd. unfold binary_round_aux.
  pose proof (shr_fexp_bounds mx ex lx 1023 Hm He Hd ltac:(lia)) as H1.
  destruct (shr_fexp prec emax mx ex lx) as [mrs' e'] eqn:E1. cbn [fst snd] in H1.
  destruct H1 as (Hm' & He' & Hd').
  pose proof (round_nearest_even_bounds (shr_m mrs') (loc_of_shr_record mrs') Hm') as [Hr Hrd].
  pose proof (shr_fexp_bounds _ e' loc_Exact 1024 Hr He' ltac:(lia) ltac:(lia)) as H2.
  destruct (shr_fexp prec emax (round_nearest_even (shr_m mrs') (loc_of_shr_record mrs')) e' loc_Exact)
    as [mrs'' e''] eqn:E2. cbn [fst snd] in H2.
  destruct H2 as (Hm'' & He'' & _).
  destruct (shr_m mrs'') as [|p|p]; try reflexivity; try lia.
  replace (e'' <=? emax - prec) with true; [reflexivity|].
  symmetry. apply Z.leb_le. change (emax - prec) with 971. lia.
Qed.

Lemma SFdiv_core_binary_bounds (m1 m2 : positive) (e1 e2 : Z) :
  let d := Zdigits2 (Zpos m1) + e1 - (Zdigits2 (Zpos m2) + e2) in
  let r := SFdiv_core_binary prec emax (Zpos m1) e1 (Zpos m2) e2 in
  0 <= fst (fst r) /\ snd (fst r) <= fexp prec emax d
  /\ Zdigits2 (fst (fst r)) + snd (fst r) <= Z.max (snd (fst r)) (d + 1).
Proof.
  intros d r. subst r. unfold SFdiv_core_binary.
  fold d. cbn [Zdigits2] in d.
  set (e' := Z.min (fexp prec emax d) (e1 - e2)).
  set (s := e1 - e2 - e').
  assert (Hs : 0 <= s) by (unfold s, e'; lia).
  set (m' := match s with Z.pos _ => Z.shiftl (Z.pos m1) s | 0 => Z.pos m1 | Z.neg _ => 0 end).
  assert (Hm' : m' = Zpos m1 * 2 ^ s).
  { unfold m'. destruct s as [|p|p]; [lia| |lia]. now rewrite Z.shiftl_mul_pow2 by lia. }
  pose proof (Z_div_mod m' (Zpos m2) ltac:(lia)) as Hdiv.
  destruct (Z.div_eucl m' (Z.pos m2)) as [q rr]. cbn [fst snd].
  destruct Hdiv as [Heq Hr].
  assert (H2s : 0 < 2 ^ s) by (apply Z.pow_pos_nonneg; lia).
  assert (Hq : 0 <= q) by nia.
  split; [assumption|]. split; [unfold e'; lia|].
  pose proof (digits2_pos_bounds m1) as [_ H1].
  pose proof (digits2_pos_bounds m2) as [H2 _].
  set (d1 := Zpos (digits2_pos m1)) in *. set (d2 := Zpos (digits2_pos m2)) in *.
  assert (Hd : d = d1 + e1 - (d2 + e2)) by reflexivity.
  assert (Hlt : q * 2 ^ (d2 - 1) < 2 ^ (d1 + s)).
  { rewrite Z.pow_add_r by (unfold d1; lia).
    assert (q * 2 ^ (d2 - 1) <= q * Zpos m2) by (apply Z.mul_le_mono_nonneg_l; lia).
    assert (Zpos m1 * 2 ^ s < 2 ^ d1 * 2 ^ s) by (apply Z.mul_lt_mono_pos_r; lia).
    lia. }
  assert (Hp2 : 0 < 2 ^ (d2 - 1)) by (apply Z.pow_pos_nonneg; unfold d2; lia).
  destruct (Z_le_gt_dec (d2 - 1) (d1 + s)) as [Hle|Hgt].
  - assert (Hq2 : q < 2 ^ (d1 + s - (d2 - 1))).
    { replace (d1 + s) with ((d1 + s - (d2 - 1)) + (d2 - 1)) in Hlt by lia.
      rewrite Z.pow_add_r in Hlt by (unfold d2; lia).
      apply Z.mul_lt_mono_pos_r in Hlt; assumption. }
    pose proof (Zdigits2_le_of_lt q (d1 + s - (d2 - 1)) Hq ltac:(lia) Hq2) as Hdq.
    clearbody d. unfold s in Hdq. lia.
  - assert (2 ^ (d1 + s) <= 2 ^ (d2 - 1)) by (apply Z.pow_le_mono_r; unfold d1; lia).
    assert (q = 0) by nia. subst q. cbn [Zdigits2]. clearbody d. lia.
Qed.

Lemma valid_binary_finite_bounds s m e :
  valid_binary (S754_finite s m e) = true ->
  e <= 971 /\ Zdigits2 (Zpos m) + e <= 1024.
Proof.
  cbn [SpecFloat.valid_binary]. unfold bounded, canonical_mantissa.
  rewrite andb_true_iff, Z.eqb_eq, Z.leb_le, fexp64.
  change (emax - prec) with 971. cbn [Zdigits2]. lia.
Qed.

(** Dividing a finite number by a finite one of magnitude at least 2 cannot
    overflow: the quotient is a zero or a finite number. *)
Lemma SFdiv_finite (x : spec_float) sy my ey :
  valid_binary x = true -> Py.SF_isfinite x = true ->
  2 <= Zdigits2 (Zpos my) + ey ->
  Py.SF_isfinite (SFdiv prec emax x (S754_finite sy my ey)) = true.
Proof.
  intros Hv Hf Hy. destruct x as [sx|sx| |sx mx ex]; try discriminate; [reflexivity|].
  cbn [SFdiv].
  pose proof (SFdiv_core_binary_bounds mx my ex ey) as H. cbv zeta in H.
  destruct (SFdiv_core_binary prec emax (Zpos mx) ex (Zpos my) ey) as [[q e'] l].
  cbn [fst snd] in H. destruct H as (Hq & He & Hd).
  apply valid_binary_finite_bounds in Hv. rewrite fexp64 in He.
  apply binary_round_aux_finite; lia.
Qed.

Lemma isfinite_SF (x : float) :
  Py.isfinite x = true -> Py.SF_isfinite (Prim2SF x) = true.
Proof.
  unfold Py.isfinite, Prim2SF. intros H.
  apply andb_true_iff in H as [Hn Hi].
  apply negb_true_iff in Hn, Hi. rewrite Hn, Hi.
  destruct (is_zero x); [reflexivity|].
  destruct (Z.frexp x) as [r ex].
  destruct (shr_fexp prec emax _ _ _) as [sh e'].
  destruct (shr_m sh); reflexivity.
Qed.

(** A finite float divided by a float literal of magnitude 2 or more is
    finite. *)
Lemma div_isfinite (x y : float) sy my ey :
  Prim2SF y = S754_finite sy my ey -> 2 <= Zdigits2 (Zpos my) + ey ->
  Py.isfinite x = true -> Py.SF_isfinite (Prim2SF (x / y)) = true.
Proof.
  intros Hy Hmag Hx. rewrite div_spec, Hy. unfold SF64div.
  apply SFdiv_finite; [apply Prim2SF_valid|now apply isfinite_SF|assumption].
Qed.

Lemma round_total (x : float) :
  Py.SF_isfinite (Prim2SF x) = true -> exists r, Py.round x = Py.ok r.
Proof.
  unfold Py.round. destruct (Prim2SF x); try discriminate; eauto.
Qed.

Lemma SFcompare_refl (x : spec_float) :
  x <> S754_nan -> SFcompare x x = Some Eq.
Proof.
  destruct x as [s|s| |s m e]; cbn [SFcompare]; intros H; try congruence.
  - now destruct s.
  - destruct s; rewrite Z.compare_refl;
      change (Pos.compare_cont Eq m m) with (Pos.compare m m);
      now rewrite Pos.compare_refl.
Qed.

Lemma SFcompare_None (x y : spec_float) :
  SFcompare x y = None -> x = S754_nan \/ y = S754_nan.
Proof.
  destruct x as [sx|sx| |sx mx ex], y as [sy|sy| |sy my ey]; cbn [SFcompare];
    intros H; try discriminate; auto.
Qed.

Lemma ltb_true_leb_true (x y : float) :
  PrimFloat.ltb x y = true -> PrimFloat.leb x y = true.
Proof.
  rewrite leb_spec, ltb_spec. unfold SFleb, SFltb.
  destruct (SFcompare (Prim2SF x) (Prim2SF y)) as [[ | | ]|]; congruence.
Qed.

Lemma ltb_false_leb_true (x y : float) :
  Prim2SF x <> S754_nan -> Prim2SF y <> S754_nan ->
  PrimFloat.ltb x y = false -> PrimFloat.leb y x = true.
Proof.
  intros Hx Hy. rewrite leb_spec, ltb_spec. unfold SFleb, SFltb.
  rewrite (SFcompare_antisym (Prim2SF x) (Prim2SF y)).
  destruct (SFcompare (Prim2SF x) (Prim2SF y)) as [[ | | ]|] eqn:E; cbn; try congruence.
  apply SFcompare_None in E. tauto.
Qed.

Lemma leb_refl (x : float) : Prim2SF x <> S754_nan -> PrimFloat.leb x x = true.
Proof.
  intros H. rewrite leb_spec. unfold SFleb. now rewrite SFcompare_refl.
Qed.

Lemma leb_true_not_nan (x y : float) :
  PrimFloat.leb x y = true -> Prim2SF x <> S754_nan /\ Prim2SF y <> S754_nan.
Proof.
  rewrite leb_spec. unfold SFleb.
  destruct (Prim2SF x) as [sx|sx| |sx mx ex], (Prim2SF y) as [sy|sy| |sy my ey];
    cbn [SFcompare]; intros H; try discriminate; split; discriminate.
Qed.
Ltac cmp_cases :=
  repeat match goal with
  | |- context [Z.compare ?a ?b] => destruct (Z.compare_spec a b)
  | H : context [Z.compare ?a ?b] |- _ => destruct (Z.compare_spec a b)
  | |- context [Pos.compare_cont Eq ?a ?b] =>
      change (Pos.compare_cont Eq a b) with (Pos.compare a b);
      destruct (Pos.compare_spec a b)
  | H : context [Pos.compare_cont Eq ?a ?b] |- _ =>
      change (Pos.compare_cont Eq a b) with (Pos.compare a b) in H;
      destruct (Pos.compare_spec a b)
  end.

Lemma SFcompare_lt_le_trans (x y z : spec_float) :
  SFcompare x y = Some Lt ->
  (SFcompare y z = Some Lt \/ SFcompare y z = Some Eq) ->
  SFcompare x z = Some Lt.
Proof.
  destruct x as [sx|sx| |sx mx ex], y as [sy|sy| |sy my ey], z as [sz|sz| |sz mz ez];
    cbn [SFcompare]; intros H1 [H2|H2]; try discriminate;
    try (destruct sx); try (destruct sy); try (destruct sz);
    try discriminate; try reflexivity;
    cbn [CompOpp] in *; cmp_cases; cbn [CompOpp] in *; try discriminate; try reflexivity;
    try lia.
Qed.

Lemma ltb_leb_trans (x y z : float) :
  PrimFloat.ltb x y = true -> PrimFloat.leb y z = true -> PrimFloat.ltb x z = true.
Proof.
  rewrite !ltb_spec, leb_spec. unfold SFltb, SFleb. intros H1 H2.
  rewrite (SFcompare_lt_le_trans (Prim2SF x) (Prim2SF y) (Prim2SF z)); [reflexivity| |].
  - destruct (SFcompare (Prim2SF x) (Prim2SF y)) as [[ | | ]|]; congruence.
  - destruct (SFcompare (Prim2SF y) (Prim2SF z)) as [[ | | ]|]; try discriminate; auto.
Qed.

Lemma leb_below (a c d : float) :
  PrimFloat.leb a c = true -> PrimFloat.ltb d c = false -> PrimFloat.ltb d a = false.
Proof.
  intros Hac Hdc. destruct (PrimFloat.ltb d a) eqn:E; [|reflexivity].
  rewrite (ltb_leb_trans d a c E Hac) in Hdc. discriminate.
Qed.

Lemma ltb_false_positive (a c : float) mc ec :
  Prim2SF c = S754_finite false mc ec -> Prim2SF a <> S754_nan ->
  PrimFloat.ltb a c = false -> PrimFloat.ltb 0 a = true.
Proof.
  intros Hc Ha. rewrite !ltb_spec, Hc. unfold SFltb.
  change (Prim2SF 0) with (S754_zero false).
  destruct (Prim2SF a) as [s|s| |s m e]; cbn [SFcompare]; try congruence;
    destruct s; congruence.
Qed.

(** The quotient of the rise-time estimate is a number whenever the
    altitude compares [<= 0]. *)
Lemma rise_quotient_not_nan (alt : float) :
  PrimFloat.leb alt 0 = true -> Prim2SF ((0 - alt) / 15) <> S754_nan.
Proof.
  intros H. apply leb_true_not_nan in H as [Halt _].
  rewrite div_spec, sub_spec.
  change (Prim2SF 0) with (S754_zero false).
  change (Prim2SF 15) with (S754_finite false 8444249301319680 (-49)).
  pose proof (Prim2SF_valid alt) as Hv.
  destruct (Prim2SF alt) as [s|s| |s m e]; try congruence.
  - destruct s; discriminate.
  - discriminate.
  - cbn [SF64sub SFsub]. unfold SF64div.
    assert (Hf : Py.SF_isfinite
              (SFdiv prec emax (S754_finite (negb s) m e)
                 (S754_finite false 8444249301319680 (-49))) = true).
    { apply SFdiv_finite; [exact Hv|reflexivity|cbn; lia]. }
    intros E. rewrite E in Hf. discriminate.
Qed.

End FloatFacts.

(** ** The visibility classifier *)

(** C2: the classifier sends an altitude to exactly one of five tiers, cut
    by strict comparisons at 30, 15, 5 and 0 degrees: above 30 Excellent,
    above 15 (and at most 30) Good, above 5 Fair, above 0 Poor, at most 0 Not
    visible; the altitude 30.0 itself is Good, not Excellent. *)
Theorem calculate_visibility_tiers (altitude : float) :
  (Py.gt altitude 30 = true ->
   calculate_visibility altitude
   = "Excellent - High in the sky, ideal for observation")
  /\ (Py.le altitude 30 = true -> Py.gt altitude 15 = true ->
      calculate_visibility altitude = "Good - Reasonably high for observation")
  /\ (Py.le altitude 15 = true -> Py.gt altitude 5 = true ->
      calculate_visibility altitude
      = "Fair - Low in the sky, atmospheric effects noticeable")
  /\ (Py.le altitude 5 = true -> Py.gt altitude 0 = true ->
      calculate_visibility altitude
      = "Poor - Very low, near horizon. Wait for better time.")
  /\ (Py.le altitude 0 = true ->
      calculate_visibility altitude = "Not visible - Below horizon")
  /\ In (calculate_visibility altitude)
       ["Excellent - High in the sky, ideal for observation";
        "Good - Reasonably high for observation";
        "Fair - Low in the sky, atmospheric effects noticeable";
        "Poor - Very low, near horizon. Wait for better time.";
        "Not visible - Below horizon"]
  /\ calculate_visibility 30 = "Good - Reasonably high for observation"
  /\ calculate_visibility 15 = "Fair - Low in the sky, atmospheric effects noticeable"
  /\ calculate_visibility 5 = "Poor - Very low, near horizon. Wait for better time."
  /\ calculate_visibility 0 = "Not visible - Below horizon".
Proof.
  unfold calculate_visibility, Py.gt, Py.le.
  repeat split; try reflexivity.
  - intros ->. reflexivity.
  - intros H30 ->. now rewrite (leb_true_ltb_false _ _ H30).
  - intros H15 ->.
    now rewrite (leb_below _ 15 30 H15), (leb_true_ltb_false _ _ H15).
  - intros H5 ->.
    now rewrite (leb_below _ 5 30 H5), (leb_below _ 5 15 H5),
      (leb_true_ltb_false _ _ H5).
  - intros H0.
    now rewrite (leb_below _ 0 30 H0), (leb_below _ 0 15 H0),
      (leb_below _ 0 5 H0), (leb_true_ltb_false _ _ H0).
  - cbn [In].
    destruct (PrimFloat.ltb 30 altitude); [tauto|].
    destruct (PrimFloat.ltb 15 altitude); [tauto|].
    destruct (PrimFloat.ltb 5 altitude); [tauto|].
    destruct (PrimFloat.ltb 0 altitude); tauto.
Qed.

(** ** The rise-time estimate *)

(** C4: for an altitude that compares [<= 0], the estimate is the greater of
    [(0 - alt) / 15] and [0.1]: one of the two, at least both; so it is at
    least 0.1 hour and strictly positive, and [main] always reports a rise
    time.  At -15 degrees it is exactly 1 hour, at 0 degrees it is 0.1. *)
Theorem hours_till_rise_floor (alt : float) :
  Py.le alt 0 = true ->
  (hours_till_rise alt = ((0 - alt) / 15)%float
   \/ hours_till_rise alt = 0.1%float)
  /\ Py.le ((0 - alt) / 15) (hours_till_rise alt) = true
  /\ Py.le 0.1 (hours_till_rise alt) = true
  /\ Py.gt (hours_till_rise alt) 0 = true
  /\ rise_time_is_reported alt = true
  /\ hours_till_rise (-15) = 1%float
  /\ hours_till_rise 0 = 0.1%float
  /\ hours_till_rise (-0) = 0.1%float.
Proof.
  intros Hle. pose proof (rise_quotient_not_nan alt Hle) as Hq.
  unfold rise_time_is_reported, hours_till_rise, Py.max, Py.gt, Py.le in *.
  set (q := ((0 - alt) / 15)%float) in *.
  assert (Htenth : Prim2SF 0.1 <> S754_nan) by discriminate.
  destruct (PrimFloat.ltb q 0.1) eqn:E.
  - repeat split; try reflexivity; auto using ltb_true_leb_true.
  - assert (Hpos : PrimFloat.ltb 0 q = true).
    { apply (ltb_false_positive q 0.1 7205759403792794 (-56)); auto. }
    repeat split; try reflexivity; auto using leb_refl, ltb_false_leb_true.
Qed.

Lemma hours_till_rise_floor_witness :
  Py.le (-15) 0 = true /\ hours_till_rise (-15) = 1%float.
Proof.
  split; [reflexivity|].
  apply (hours_till_rise_floor (-15)). reflexivity.
Defined.

(** ** The compass direction *)

Lemma round_half_even_nearest (m : positive) (e : Z) :
  (Qabs (Py.SF2Q (S754_finite false m e) - inject_Z (Py.round_half_even m e))
   <= 1 # 2)%Q.
Proof.
  unfold Py.SF2Q, Py.round_half_even.
  destruct e as [|p|p].
  - unfold Qle, Qminus, Qplus, Qopp, Qabs, inject_Z. cbn [Qnum Qden]. lia.
  - unfold Qle, Qminus, Qplus, Qopp, Qabs, inject_Z. cbn [Qnum Qden]. lia.
  - assert (Hd : 0 < 2 ^ Zpos p) by (apply Z.pow_pos_nonneg; lia).
    pose proof (Z_div_mod_eq_full (Zpos m) (2 ^ Zpos p)) as Hdm.
    pose proof (Z.mod_pos_bound (Zpos m) (2 ^ Zpos p) Hd) as Hr.
    set (d := 2 ^ Zpos p) in *.
    set (q := Zpos m / d) in *. set (r := Zpos m mod d) in *.
    assert (Hden : Zpos (2 ^ p) = d) by (unfold d; now rewrite Pos2Z.inj_pow).
    unfold Qle, Qminus, Qplus, Qopp, Qabs, inject_Z. cbn [Qnum Qden].
    rewrite Pos.mul_1_r, Hden.
    destruct (Z.compare_spec (2 * r) d); [destruct (Z.even q)| |]; nia.
Qed.

(** [round] returns an integer nearest to its argument. *)
Lemma round_nearest (x : float) (r : Z) :
  Py.round x = Py.ok r -> (Qabs (Py.value x - inject_Z r) <= 1 # 2)%Q.
Proof.
  unfold Py.round, Py.value.
  destruct (Prim2SF x) as [s|s| |s m e]; try discriminate.
  - intros [= <-]. now compute.
  - intros [= <-]. pose proof (round_half_even_nearest m e) as H.
    destruct s; [|exact H].
    cbn [Py.SF2Q] in *.
    set (v := match e with
              | Z.neg p => Z.pos m # 2 ^ p
              | _ => inject_Z (Z.pos m * 2 ^ e)
              end) in *.
    assert (E : (- v - inject_Z (- Py.round_half_even m e)
                 == - (v - inject_Z (Py.round_half_even m e)))%Q).
    { rewrite inject_Z_opp. ring. }
    rewrite E, Qabs_opp. exact H.
Qed.

Lemma getitem_compass_points (r : Z) :
  Py.getitem compass_points (r mod 16)
  = Py.ok (nth (Z.to_nat (r mod 16)) compass_points ""%string).
Proof.
  pose proof (Z.mod_pos_bound r 16 ltac:(lia)) as Hb.
  unfold Py.getitem.
  change (Z.of_nat (List.length compass_points)) with 16.
  replace (r mod 16 <? 0) with false by (symmetry; apply Z.ltb_ge; lia).
  replace (0 <=? r mod 16) with true by (symmetry; apply Z.leb_le; lia).
  replace (r mod 16 <? 16) with true by (symmetry; apply Z.ltb_lt; lia).
  cbn [andb].
  assert (Hn : (Z.to_nat (r mod 16) < List.length compass_points)%nat)
    by (change (List.length compass_points) with 16%nat; lia).
  rewrite (nth_error_nth' compass_points ""%string Hn). reflexivity.
Qed.

Lemma compass_points_at (k : Z) :
  0 <= k < 16 ->
  nth (Z.to_nat k) compass_points ""%string
  = match k with
    | 0 => "N" | 1 => "NNE" | 2 => "NE" | 3 => "ENE"
    | 4 => "E" | 5 => "ESE" | 6 => "SE" | 7 => "SSE"
    | 8 => "S" | 9 => "SSW" | 10 => "SW" | 11 => "WSW"
    | 12 => "W" | 13 => "WNW" | 14 => "NW" | _ => "NNW"
    end%string.
Proof.
  intros Hk.
  assert (H : k = 0 \/ k = 1 \/ k = 2 \/ k = 3 \/ k = 4 \/ k = 5 \/ k = 6
              \/ k = 7 \/ k = 8 \/ k = 9 \/ k = 10 \/ k = 11 \/ k = 12
              \/ k = 13 \/ k = 14 \/ k = 15) by lia.
  repeat (destruct H as [->|H]; [reflexivity|]). subst k. reflexivity.
Qed.

(** C3: the direction is the compass point whose index is [round(az / 22.5)]
    reduced modulo 16, where [round] picks an integer nearest to the
    quotient and the sixteen points run clockwise from north: N, NNE, NE,
    ENE, E, ESE, SE, SSE, S, SSW, SW, WSW, W, WNW, NW, NNW.  So 0, 359.9, 180
    and 90 degrees give N, N, S and E, every multiple of 22.5 degrees gives
    its own point, and 360 degrees wraps to N. *)
Theorem get_compass_direction_rounds (azimuth : float) :
  get_compass_direction azimuth
  = (r <- Py.round (azimuth / 22.5) ;;
     Py.ok (nth (Z.to_nat (r mod 16)) compass_points ""%string))
  /\ get_compass_direction azimuth
     = (r <- Py.round (azimuth / 22.5) ;;
        Py.ok match r mod 16 with
              | 0 => "N" | 1 => "NNE" | 2 => "NE" | 3 => "ENE"
              | 4 => "E" | 5 => "ESE" | 6 => "SE" | 7 => "SSE"
              | 8 => "S" | 9 => "SSW" | 10 => "SW" | 11 => "WSW"
              | 12 => "W" | 13 => "WNW" | 14 => "NW" | _ => "NNW"
              end%string)
  /\ (forall r, Py.round (azimuth / 22.5) = Py.ok r ->
      (Qabs (Py.value (azimuth / 22.5) - inject_Z r) <= 1 # 2)%Q)
  /\ get_compass_direction 0 = Py.ok "N"%string
  /\ get_compass_direction 359.9 = Py.ok "N"%string
  /\ get_compass_direction 180 = Py.ok "S"%string
  /\ get_compass_direction 90 = Py.ok "E"%string
  /\ List.map get_compass_direction
       [0; 22.5; 45; 67.5; 90; 112.5; 135; 157.5;
        180; 202.5; 225; 247.5; 270; 292.5; 315; 337.5; 360]%float
     = List.map Py.ok
         ["N"; "NNE"; "NE"; "ENE"; "E"; "ESE"; "SE"; "SSE";
          "S"; "SSW"; "SW"; "WSW"; "W"; "WNW"; "NW"; "NNW"; "N"]%string.
Proof.
  assert (E : get_compass_direction azimuth
              = (r <- Py.round (azimuth / 22.5) ;;
                 Py.ok (nth (Z.to_nat (r mod 16)) compass_points ""%string))).
  { unfold get_compass_direction, Py.bind.
    destruct (Py.round (azimuth / 22.5)) as [e|r]; [reflexivity|].
    apply getitem_compass_points. }
  split; [exact E|]. split.
  { rewrite E. unfold Py.bind.
    destruct (Py.round (azimuth / 22.5)) as [e|r]; [reflexivity|].
    unfold Py.ok. f_equal. apply compass_points_at.
    apply Z.mod_pos_bound. lia. }
  split; [intros r; apply round_nearest|].
  split; [vm_compute; reflexivity|].
  split; [vm_compute; reflexivity|].
  split; [vm_compute; reflexivity|].
  split; [vm_compute; reflexivity|].
  vm_compute. reflexivity.
Qed.

(** C9: whatever finite azimuth comes in, below 0 or beyond 360 included,
    [round(azimuth / 22.5)] is an integer, its residue modulo 16 is an index
    of the 16-element list, and the function returns the compass point at
    that index. *)
Theorem compass_index_in_bounds (azimuth : float) :
  Py.isfinite azimuth = true ->
  exists r s,
    Py.round (azimuth / 22.5) = Py.ok r
    /\ 0 <= r mod 16 < Z.of_nat (List.length compass_points)
    /\ nth_error compass_points (Z.to_nat (r mod 16)) = Some s
    /\ get_compass_direction azimuth = Py.ok s.
Proof.
  intros Hfin.
  destruct (round_total (azimuth / 22.5)) as [r Hr].
  { apply (div_isfinite azimuth 22.5 false 6333186975989760 (-48));
      [reflexivity|cbn; lia|assumption]. }
  pose proof (Z.mod_pos_bound r 16 ltac:(lia)) as Hb.
  assert (Hn : (Z.to_nat (r mod 16) < List.length compass_points)%nat)
    by (change (List.length compass_points) with 16%nat; lia).
  exists r, (nth (Z.to_nat (r mod 16)) compass_points ""%string).
  split; [exact Hr|]. split; [exact Hb|]. split.
  - now apply nth_error_nth'.
  - unfold get_compass_direction, Py.bind. rewrite Hr.
    apply getitem_compass_points.
Qed.

Lemma compass_index_in_bounds_witness :
  Py.isfinite (-400) = true
  /\ exists r s,
       Py.round (-400 / 22.5) = Py.ok r
       /\ 0 <= r mod 16 < Z.of_nat (List.length compass_points)
       /\ nth_error compass_points (Z.to_nat (r mod 16)) = Some s
       /\ get_compass_direction (-400) = Py.ok s.
Proof.
  split; [reflexivity|].
  apply (compass_index_in_bounds (-400)). reflexivity.
Defined.

(** ** Builtins raise [ValueError] only *)

Lemma int_raises_ValueError (s : string) (e : Py.exn) :
  Py.int s = Py.raise e -> e = Py.ValueError.
Proof.
  unfold Py.int, Py.raise, Py.ok. destruct (Py.sign (Py.strip_c s)) as [neg body].
  destruct (Py.digitpart body 0 0 false) as [[[v [|n]] [|c r]]|]; try congruence.
  destruct (S n <=? Py.max_str_digits)%nat; congruence.
Qed.

Lemma float_raises_ValueError (s : string) (e : Py.exn) :
  Py.float s = Py.raise e -> e = Py.ValueError.
Proof.
  unfold Py.float, Py.raise, Py.ok. destruct (Py.sign (Py.strip_c s)) as [neg body].
  destruct (_ || _); [discriminate|].
  destruct (String.eqb _ "nan"); [discriminate|].
  destruct (Py.digitpart body 0 0 false) as [[[i ni] r1]|]; [|congruence].
  destruct (match r1 with String "." r => _ | _ => _ end) as [[[m nf] r2]|];
    [|congruence].
  destruct (ni + nf)%nat; [congruence|].
  destruct (Py.exponent r2) as [[x [|c r]]|]; congruence.
Qed.

Lemma strptime_raises_ValueError (s : string) (e : Py.exn) :
  Datetime.strptime s = Py.raise e -> e = Py.ValueError.
Proof.
  unfold Datetime.strptime, Py.raise, Py.ok.
  destruct (Datetime.matches s) as [|[[[[[[y m] d] hh] mm] ss] [|c r]] l];
    try congruence.
  destruct (Datetime.valid y m d hh mm ss); congruence.
Qed.

(** What [strptime] accepts is a date and time of the calendar, naive. *)
Lemma strptime_valid (s : string) (dt : Datetime.t) :
  Datetime.strptime s = Py.ok dt ->
  Datetime.valid (Datetime.year dt) (Datetime.month dt) (Datetime.day dt)
    (Datetime.hour dt) (Datetime.minute dt) (Datetime.second dt) = true
  /\ Datetime.tzinfo dt = None.
Proof.
  unfold Datetime.strptime, Py.raise, Py.ok.
  destruct (Datetime.matches s) as [|[[[[[[y m] d] hh] mm] ss] [|c r]] l];
    try discriminate.
  destruct (Datetime.valid y m d hh mm ss) eqn:E; [|discriminate].
  intros [= <-]. cbn. auto.
Qed.

(** ** Traces *)

Lemma geocode_calls_app (a b : list event) :
  geocode_calls (a ++ b) = (geocode_calls a ++ geocode_calls b)%list.
Proof. apply flat_map_app. Qed.

Lemma not_fatal_emit {A : Type} (evs : list event) (r : run A) :
  ~ fatal r -> ~ fatal (emit evs r).
Proof. intros H. exact H. Qed.

Lemma not_fatal_returned {A : Type} (evs : list event) (a : A) rest :
  ~ fatal (evs, Returned a rest).
Proof. intros (e & r & H). discriminate. Qed.

Lemma not_fatal_pending {A : Type} (evs : list event) :
  ~ fatal (evs, @Pending A).
Proof. intros (e & r & H). discriminate. Qed.

Create HintDb dialogue.
#[local] Hint Resolve not_fatal_returned not_fatal_pending : dialogue.

Lemma not_fatal_and_then {A B : Type} (r : run A) (k : A -> list string -> run B) :
  ~ fatal r -> (forall a rest, ~ fatal (k a rest)) -> ~ fatal (and_then r k).
Proof.
  intros Hr Hk. unfold and_then. destruct r as [evs [a rest|e rest|]]; cbn [snd fst].
  - apply not_fatal_emit, Hk.
  - exfalso. apply Hr. now exists e, rest.
  - auto with dialogue.
Qed.

Lemma geocode_calls_and_then {A B : Type} (r : run A)
  (k : A -> list string -> run B) :
  geocode_calls (fst r) = [] ->
  (exists a rest, snd r = Returned a rest
                  /\ geocode_calls (fst (and_then r k)) = geocode_calls (fst (k a rest)))
  \/ geocode_calls (fst (and_then r k)) = [].
Proof.
  intros H. unfold and_then. destruct r as [evs [a rest|e rest|]]; cbn [snd fst] in *.
  - left. exists a, rest. split; [reflexivity|].
    unfold emit. cbn [fst]. now rewrite geocode_calls_app, H.
  - now right.
  - now right.
Qed.

(** ** Location by city *)

Lemma lstrip_blank (s : string) :
  forallb Py.isspace (list_ascii_of_string s) = true -> Py.lstrip s = ""%string.
Proof.
  induction s as [|c s IH]; cbn [list_ascii_of_string forallb Py.lstrip];
    [reflexivity|].
  intros H. apply andb_true_iff in H as [Hc Hs]. rewrite Hc. auto.
Qed.

Lemma strip_blank (s : string) :
  forallb Py.isspace (list_ascii_of_string s) = true -> Py.strip s = ""%string.
Proof. intros H. unfold Py.strip. now rewrite lstrip_blank. Qed.

Section CityFacts.

Variable geocode : nat -> string -> Z -> geocoded.

Lemma city_run_ok_emit (evs : list event) (r : run (float * float)) :
  geocode_calls evs = [] -> city_run_ok r -> city_run_ok (emit evs r).
Proof.
  intros He (Ht & Hf & Hn). unfold city_run_ok, emit. cbn [fst snd].
  rewrite geocode_calls_app, He. cbn [app].
  split; [exact Ht|]. split; [|exact Hn].
  intros q t a Hin Ha. destruct (Hf q t a Hin Ha) as (evs' & rest & E1 & E2).
  exists (evs ++ evs')%list, rest. split; [|exact E2].
  rewrite E1. now rewrite app_assoc.
Qed.

Lemma city_run_ok_no_calls (evs : list event) (p : float * float) rest :
  geocode_calls evs = [] -> city_run_ok (evs, Returned p rest).
Proof.
  intros He. unfold city_run_ok. cbn [fst snd]. rewrite He.
  split; [constructor|]. split; [intros q t a []|auto with dialogue].
Qed.

Lemma get_location_by_city_loop_ok (stdin : list string) : forall calls,
  city_run_ok (get_location_by_city_loop geocode calls stdin).
Proof.
  induction stdin as [|line rest IH]; intros calls; cbn [get_location_by_city_loop].
  - unfold city_run_ok. cbn. split; [constructor|].
    split; [intros q t a []|auto with dialogue].
  - apply city_run_ok_emit; [reflexivity|].
    destruct (String.eqb (Py.strip line) "").
    + now apply city_run_ok_no_calls.
    + destruct (geocode calls (Py.strip line) 10) as [loc| | | |msg] eqn:Eg.
      * unfold city_run_ok, emit. cbn. split; [repeat constructor|].
        split; [|auto with dialogue].
        intros q t a [[= _ _ <-]|[]] [?|?]; discriminate.
      * specialize (IH (S calls)).
        apply (city_run_ok_emit
                 [Print "Location not found. Please try again.";
                  Print "Try being more specific (add country name)"]
                 _ eq_refl) in IH.
        destruct IH as (Ht & Hf & Hn).
        unfold city_run_ok, emit in *. cbn [fst snd app geocode_calls flat_map] in *.
        split; [constructor; [reflexivity|exact Ht]|]. split; [|exact Hn].
        intros q t a [[= _ _ <-]|Hin] Ha; [destruct Ha; discriminate|].
        destruct (Hf q t a Hin Ha) as (evs' & rest' & E1 & E2).
        exists (Print "Geocoding your location..."
                :: Geocode (Py.strip line) 10 NotFound :: evs')%list, rest'.
        split; [|exact E2]. cbn [app]. now rewrite E1.
      * unfold city_run_ok, emit. cbn. split; [repeat constructor|].
        split; [|auto with dialogue]. intros q t a _ _.
        exists [Print "Geocoding your location...";
                Geocode (Py.strip line) 10 TimedOut], rest. auto.
      * unfold city_run_ok, emit. cbn. split; [repeat constructor|].
        split; [|auto with dialogue]. intros q t a _ _.
        exists [Print "Geocoding your location...";
                Geocode (Py.strip line) 10 ServiceError], rest. auto.
      * unfold city_run_ok, emit. cbn. split; [repeat constructor|].
        split; [|auto with dialogue].
        intros q t a [[= _ _ <-]|[]] [?|?]; discriminate.
Qed.

Lemma get_location_by_city_ok (stdin : list string) :
  city_run_ok (get_location_by_city geocode stdin).
Proof.
  unfold get_location_by_city.
  apply city_run_ok_emit; [reflexivity|apply get_location_by_city_loop_ok].
Qed.

End CityFacts.

(** ** Location by coordinates, and the choice between the two *)

Lemma input_float_not_fatal (prompt : string) (stdin : list string)
  (k : float -> list string -> run (float * float)) :
  (forall x rest, ~ fatal (k x rest)) -> ~ fatal (input_float prompt stdin k).
Proof.
  intros Hk. destruct stdin as [|line rest]; cbn [input_float];
    [auto with dialogue|].
  apply not_fatal_emit.
  destruct (Py.float line) as [e|x] eqn:E; [|apply Hk].
  apply float_raises_ValueError in E. subst e. auto with dialogue.
Qed.

Lemma input_float_no_calls (prompt : string) (stdin : list string)
  (k : float -> list string -> run (float * float)) :
  (forall x rest, geocode_calls (fst (k x rest)) = []) ->
  geocode_calls (fst (input_float prompt stdin k)) = [].
Proof.
  intros Hk. destruct stdin as [|line rest]; cbn [input_float]; [reflexivity|].
  unfold emit. cbn [fst]. rewrite geocode_calls_app. cbn [geocode_calls flat_map app].
  destruct (Py.float line) as [[ | | ]|x]; try reflexivity. apply Hk.
Qed.

Lemma get_location_by_coordinates_not_fatal (stdin : list string) :
  ~ fatal (get_location_by_coordinates stdin).
Proof.
  unfold get_location_by_coordinates. apply not_fatal_emit.
  apply input_float_not_fatal. intros lat rest.
  apply input_float_not_fatal. auto with dialogue.
Qed.

Lemma get_location_by_coordinates_no_calls (stdin : list string) :
  geocode_calls (fst (get_location_by_coordinates stdin)) = [].
Proof.
  unfold get_location_by_coordinates, emit. cbn [fst].
  rewrite geocode_calls_app. cbn [geocode_calls flat_map app].
  apply input_float_no_calls. intros lat rest.
  apply input_float_no_calls. reflexivity.
Qed.

Lemma location_choice_quiet (stdin : list string) :
  geocode_calls (fst (location_choice stdin)) = []
  /\ ~ fatal (location_choice stdin).
Proof.
  induction stdin as [|line rest [IHc IHf]]; cbn [location_choice].
  - split; [reflexivity|auto with dialogue].
  - destruct (_ || _).
    + split; [reflexivity|apply not_fatal_emit; auto with dialogue].
    + split; [|exact IHf]. unfold emit. cbn [fst].
      rewrite !geocode_calls_app, IHc. reflexivity.
Qed.

Lemma time_choice_quiet (stdin : list string) :
  geocode_calls (fst (time_choice stdin)) = []
  /\ ~ fatal (time_choice stdin).
Proof.
  induction stdin as [|line rest [IHc IHf]]; cbn [time_choice].
  - split; [reflexivity|auto with dialogue].
  - destruct (existsb _ _).
    + split; [reflexivity|apply not_fatal_emit; auto with dialogue].
    + split; [|exact IHf]. unfold emit. cbn [fst].
      rewrite !geocode_calls_app, IHc. reflexivity.
Qed.

(** ** The explicit date *)

Section TimeFacts.

Variable now : Time.
Variable iso : Time -> string.

Lemma explicit_time_rejects (date_str : string) (rest : list string) :
  Datetime.strptime date_str = Py.raise Py.ValueError ->
  explicit_time iso (date_str :: rest)
  = emit [Prompt "Enter date and time (YYYY-MM-DD HH:MM:SS): ";
          Print "Invalid format. Please use YYYY-MM-DD HH:MM:SS format."]
      (explicit_time iso rest).
Proof. intros H. cbn [explicit_time]. rewrite H. reflexivity. Qed.

Lemma explicit_time_outcome (stdin : list string) :
  match snd (explicit_time iso stdin) with
  | Raised _ _ => False
  | Pending =>
      Forall (fun s => Datetime.strptime s = Py.raise Py.ValueError) stdin
  | Returned obs_time rest =>
      exists bad date_str dt,
        stdin = (bad ++ date_str :: rest)%list
        /\ Forall (fun s => Datetime.strptime s = Py.raise Py.ValueError) bad
        /\ Datetime.strptime date_str = Py.ok dt
        /\ obs_time
           = Time_of_datetime (Datetime.replace_tzinfo dt Datetime.UTC)
  end.
Proof.
  induction stdin as [|s rest IH]; cbn [explicit_time]; [constructor|].
  destruct (Datetime.strptime s) as [e|dt] eqn:E.
  - pose proof (strptime_raises_ValueError s e E) as ->.
    cbn [emit snd].
    destruct (snd (explicit_time iso rest)) as [t rest'|e rest'|].
    + destruct IH as (bad & d & dt & -> & Hbad & Hd & Ht).
      exists (s :: bad)%list, d, dt. repeat split; auto.
    + exact IH.
    + constructor; assumption.
  - cbn [emit snd]. exists [], s, dt. repeat split; auto.
Qed.

Lemma explicit_time_quiet (stdin : list string) :
  geocode_calls (fst (explicit_time iso stdin)) = []
  /\ ~ fatal (explicit_time iso stdin).
Proof.
  split.
  - induction stdin as [|s rest IH]; cbn [explicit_time]; [reflexivity|].
    unfold emit. cbn [fst]. rewrite geocode_calls_app. cbn [geocode_calls flat_map app].
    destruct (Datetime.strptime s) as [[ | | ]|dt];
      first [exact IH | reflexivity].
  - intros (e & rest & H). pose proof (explicit_time_outcome stdin) as Ho.
    now rewrite H in Ho.
Qed.

Lemma get_user_time_quiet (stdin : list string) :
  geocode_calls (fst (get_user_time now iso stdin)) = []
  /\ ~ fatal (get_user_time now iso stdin).
Proof.
  unfold get_user_time. destruct (time_choice_quiet stdin) as [Hc Hf]. split.
  - unfold emit at 1. cbn [fst]. rewrite geocode_calls_app. cbn [geocode_calls flat_map app].
    destruct (geocode_calls_and_then (time_choice stdin)
                (fun choice rest =>
                   if String.eqb choice "2" then explicit_time iso rest
                   else if String.eqb choice "3" then
                     ([Print "Using 8 PM local time for optimal night sky viewing...";
                       Print ("Approximate evening time: " ++ iso (now + 12 * u.hour))],
                      Returned (now + 12 * u.hour) rest)
                   else
                     ([Print ("Using current time: " ++ iso now)],
                      Returned now rest)) Hc)
      as [(a & rest & _ & E)|E]; rewrite E; [|reflexivity].
    destruct (String.eqb a "2"); [apply explicit_time_quiet|].
    destruct (String.eqb a "3"); reflexivity.
  - apply not_fatal_emit, not_fatal_and_then; [exact Hf|].
    intros a rest. destruct (String.eqb a "2"); [apply explicit_time_quiet|].
    destruct (String.eqb a "3"); auto with dialogue.
Qed.

End TimeFacts.

(** ** The nebula prompt *)

Lemma choose_nebula_rejects (line : string) (rest : list string) :
  Py.int line = Py.raise Py.ValueError ->
  choose_nebula (line :: rest)
  = emit [Prompt (Py.nl ++ "Enter the number of the nebula (1-13): ");
          Print "Invalid input. Please enter a number."]
      (choose_nebula rest).
Proof. intros H. cbn [choose_nebula]. rewrite H. reflexivity. Qed.

Lemma choose_nebula_quiet (stdin : list string) :
  geocode_calls (fst (choose_nebula stdin)) = []
  /\ ~ fatal (choose_nebula stdin).
Proof.
  induction stdin as [|line rest [IHc IHf]]; cbn [choose_nebula].
  - split; [reflexivity|auto with dialogue].
  - destruct (Py.int line) as [e|choice] eqn:E.
    + apply int_raises_ValueError in E. subst e.
      split; [|exact IHf]. unfold emit. cbn [fst].
      rewrite !geocode_calls_app, IHc. reflexivity.
    + destruct (_ && _).
      * split; [reflexivity|apply not_fatal_emit; auto with dialogue].
      * split; [|exact IHf]. unfold emit. cbn [fst].
        rewrite !geocode_calls_app, IHc. reflexivity.
Qed.

(** ** The claims about the dialogues *)

(** C10: a blank line at the location prompt (empty, or whitespace only)
    makes [get_location_by_city] return the default location (40.7128,
    -74.0060) at once, and no request is sent to the geocoding service. *)
Theorem blank_location_gives_default
  (geocode : nat -> string -> Z -> geocoded) (line : string)
  (rest : list string) :
  forallb Py.isspace (list_ascii_of_string line) = true ->
  get_location_by_city geocode (line :: rest)
  = ([Print (Py.nl ++ "Enter your location (you can be specific):");
      Print "Examples: 'New York, USA', 'Tokyo, Japan', 'London, UK'";
      Print "          'Paris, France', 'Sydney, Australia'";
      Prompt "Location: ";
      Print "Using default location: New York, USA"],
     Returned (40.7128, -74.0060)%float rest)
  /\ geocode_calls (fst (get_location_by_city geocode (line :: rest))) = [].
Proof.
  intros H. apply strip_blank in H.
  assert (E : get_location_by_city geocode (line :: rest)
              = ([Print (Py.nl ++ "Enter your location (you can be specific):");
                  Print "Examples: 'New York, USA', 'Tokyo, Japan', 'London, UK'";
                  Print "          'Paris, France', 'Sydney, Australia'";
                  Prompt "Location: ";
                  Print "Using default location: New York, USA"],
                 Returned (40.7128, -74.0060)%float rest)).
  { unfold get_location_by_city. cbn [get_location_by_city_loop].
    rewrite H. reflexivity. }
  split; [exact E|]. rewrite E. reflexivity.
Qed.

Lemma blank_location_gives_default_witness :
  forallb Py.isspace (list_ascii_of_string "   ") = true
  /\ snd (get_location_by_city (fun _ _ _ => TimedOut) ["   "; "Paris"])
     = Returned (40.7128, -74.0060)%float ["Paris"]
  /\ geocode_calls
       (fst (get_location_by_city (fun _ _ _ => TimedOut) ["   "; "Paris"]))
     = [].
Proof.
  split; [reflexivity|].
  destruct (blank_location_gives_default (fun _ _ _ => TimedOut) "   " ["Paris"]
              eq_refl) as [E C].
  split; [rewrite E; reflexivity|exact C].
Defined.

(** C6: every request to the geocoding service carries the timeout 10, and
    no other dialogue of the script sends one; when the service answers a
    request by a timeout or a service error, the location dialogue ends on
    the default location, its last printed line announcing the fallback;
    the failure never escapes as an exception. *)
Theorem geocoder_failure_falls_back
  (geocode : nat -> string -> Z -> geocoded) (now : Time)
  (iso : Time -> string) (stdin : list string) :
  Forall (fun c => snd (fst c) = 10)
    (geocode_calls (fst (get_user_location geocode stdin)))
  /\ (forall q t a,
        In (q, t, a) (geocode_calls (fst (get_user_location geocode stdin))) ->
        a = TimedOut \/ a = ServiceError ->
        exists evs rest,
          fst (get_user_location geocode stdin)
          = (evs ++ [Print "Geocoding service error. Using default location: New York, USA"])%list
          /\ snd (get_user_location geocode stdin)
             = Returned (40.7128, -74.0060)%float rest)
  /\ ~ fatal (get_user_location geocode stdin)
  /\ geocode_calls (fst (get_user_time now iso stdin)) = []
  /\ geocode_calls (fst (choose_nebula stdin)) = []
  /\ get_user_location (fun _ _ _ => TimedOut) ["1"; "Tokyo, Japan"]
     = ([Print (Py.nl ++ "How would you like to enter your location?");
         Print "1. City and Country (e.g., 'Tokyo, Japan')";
         Print "2. Coordinates (latitude and longitude)";
         Prompt "Enter 1 or 2: ";
         Print (Py.nl ++ "Enter your location (you can be specific):");
         Print "Examples: 'New York, USA', 'Tokyo, Japan', 'London, UK'";
         Print "          'Paris, France', 'Sydney, Australia'";
         Prompt "Location: ";
         Print "Geocoding your location...";
         Geocode "Tokyo, Japan" 10 TimedOut;
         Print "Geocoding service error. Using default location: New York, USA"],
        Returned (40.7128, -74.0060)%float []).
Proof.
  assert (Hok : city_run_ok (get_user_location geocode stdin)).
  { unfold get_user_location. apply city_run_ok_emit; [reflexivity|].
    destruct (location_choice_quiet stdin) as [Hc Hf].
    unfold and_then.
    destruct (location_choice stdin) as [evs [choice rest|e rest|]];
      cbn [fst snd] in *.
    - apply city_run_ok_emit; [exact Hc|].
      destruct (String.eqb choice "2").
      + split; [|split].
        * rewrite get_location_by_coordinates_no_calls. constructor.
        * rewrite get_location_by_coordinates_no_calls. intros q t a [].
        * apply get_location_by_coordinates_not_fatal.
      + apply get_location_by_city_ok.
    - exfalso. apply Hf. now exists e, rest.
    - unfold city_run_ok. cbn [fst snd]. rewrite Hc.
      split; [constructor|]. split; [intros q t a []|auto with dialogue]. }
  destruct Hok as (Ht & Hfall & Hn).
  split; [exact Ht|]. split; [exact Hfall|]. split; [exact Hn|].
  split; [apply get_user_time_quiet|]. split; [apply choose_nebula_quiet|].
  vm_compute. reflexivity.
Qed.

(** C5: in explicit mode a string that [strptime] rejects is answered by
    "Invalid format." and the prompt again; the loop never lets an
    exception out; the instant it returns is that of the first typed line
    that parses, a date and time of the calendar read as UTC.  The string
    "2024-13-45 99:99:99" is rejected, "2024-01-15 20:00:00" is second
    1705348800 of the Unix era. *)
Theorem explicit_time_rejects_malformed (now : Time) (iso : Time -> string) :
  (forall date_str rest,
     Datetime.strptime date_str = Py.raise Py.ValueError ->
     explicit_time iso (date_str :: rest)
     = emit [Prompt "Enter date and time (YYYY-MM-DD HH:MM:SS): ";
             Print "Invalid format. Please use YYYY-MM-DD HH:MM:SS format."]
         (explicit_time iso rest))
  /\ (forall date_str e, Datetime.strptime date_str = Py.raise e ->
                         e = Py.ValueError)
  /\ (forall stdin, ~ fatal (explicit_time iso stdin))
  /\ (forall stdin, ~ fatal (get_user_time now iso stdin))
  /\ (forall stdin obs_time rest,
        snd (explicit_time iso stdin) = Returned obs_time rest ->
        exists bad date_str dt,
          stdin = (bad ++ date_str :: rest)%list
          /\ Forall (fun s => Datetime.strptime s = Py.raise Py.ValueError) bad
          /\ Datetime.strptime date_str = Py.ok dt
          /\ Datetime.valid (Datetime.year dt) (Datetime.month dt)
               (Datetime.day dt) (Datetime.hour dt) (Datetime.minute dt)
               (Datetime.second dt) = true
          /\ obs_time
             = Time_of_datetime (Datetime.replace_tzinfo dt Datetime.UTC))
  /\ Datetime.strptime "2024-13-45 99:99:99" = Py.raise Py.ValueError
  /\ (forall rest,
        get_user_time now iso ("2" :: "2024-13-45 99:99:99" :: rest)
        = emit [Print (Py.nl ++ Py.str_mul "=" 40);
                Print "TIME SELECTION";
                Print (Py.str_mul "=" 40);
                Print "1. Use current system time";
                Print "2. Enter a specific date and time";
                Print "3. Use tonight's observing time (8 PM local)";
                Prompt "Your choice (1, 2, or 3): ";
                Prompt "Enter date and time (YYYY-MM-DD HH:MM:SS): ";
                Print "Invalid format. Please use YYYY-MM-DD HH:MM:SS format."]
            (explicit_time iso rest))
  /\ snd (get_user_time now iso ["2"; "2024-01-15 20:00:00"])
     = Returned (1705348800 * 1000000) [].
Proof.
  split; [apply explicit_time_rejects|].
  split; [apply strptime_raises_ValueError|].
  split; [intros stdin; apply explicit_time_quiet|].
  split; [intros stdin; apply get_user_time_quiet|].
  split.
  { intros stdin obs_time rest H.
    pose proof (explicit_time_outcome iso stdin) as Ho. rewrite H in Ho.
    destruct Ho as (bad & d & dt & E & Hbad & Hd & Ht).
    exists bad, d, dt. repeat split; auto. now apply (strptime_valid d). }
  split; [vm_compute; reflexivity|].
  split.
  - intros rest. unfold get_user_time, and_then.
    cbn [time_choice]. change (Py.strip "2") with "2"%string.
    cbn [existsb String.eqb Ascii.eqb Bool.eqb orb emit fst snd app].
    rewrite explicit_time_rejects by (vm_compute; reflexivity).
    reflexivity.
  - reflexivity.
Qed.

(** C8: in "tonight" mode, that is when the menu choice read is "3",
    [get_user_time] returns the clock reading advanced by twelve hours,
    43200 seconds, whatever else was typed. *)
Theorem tonight_is_now_plus_12_hours (now : Time) (iso : Time -> string)
  (stdin rest : list string) :
  snd (time_choice stdin) = Returned "3"%string rest ->
  snd (get_user_time now iso stdin) = Returned (now + 12 * u.hour) rest
  /\ now + 12 * u.hour - now = 43200 * 1000000.
Proof.
  intros H. split; [|unfold u.hour; lia].
  unfold get_user_time, and_then. cbn [emit snd].
  rewrite H. reflexivity.
Qed.

Lemma tonight_is_now_plus_12_hours_witness :
  snd (time_choice [" 4"; "3 "; "y"]) = Returned "3"%string ["y"]
  /\ snd (get_user_time 1705348800000000 (fun _ => ""%string) [" 4"; "3 "; "y"])
     = Returned (1705348800000000 + 12 * u.hour) ["y"].
Proof.
  split; [reflexivity|].
  apply (tonight_is_now_plus_12_hours 1705348800000000 (fun _ => ""%string)
           [" 4"; "3 "; "y"] ["y"] eq_refl).
Defined.

(** C7, as the script has it: a date or a nebula number that does not parse
    is answered by a message and the same prompt again; a latitude or a
    longitude that does not parse is not asked again: the dialogue prints
    "Invalid input. Using default location." and returns (40.7128,
    -74.0060).  None of the three lets an exception out.  A line that
    starts with one of the separators 0x1c-0x1f, or a number of more than
    4300 digits, is among those that do not parse. *)
Theorem unparseable_input_is_recovered (iso : Time -> string) :
  (forall line rest,
     Py.int line = Py.raise Py.ValueError ->
     choose_nebula (line :: rest)
     = emit [Prompt (Py.nl ++ "Enter the number of the nebula (1-13): ");
             Print "Invalid input. Please enter a number."]
         (choose_nebula rest))
  /\ (forall date_str rest,
        Datetime.strptime date_str = Py.raise Py.ValueError ->
        explicit_time iso (date_str :: rest)
        = emit [Prompt "Enter date and time (YYYY-MM-DD HH:MM:SS): ";
                Print "Invalid format. Please use YYYY-MM-DD HH:MM:SS format."]
            (explicit_time iso rest))
  /\ (forall line rest,
        Py.float line = Py.raise Py.ValueError ->
        get_location_by_coordinates (line :: rest)
        = ([Print (Py.nl ++ "Enter your coordinates:");
            Prompt "Latitude (degrees, + for North, - for South): ";
            Print "Invalid input. Using default location."],
           Returned (40.7128, -74.0060)%float rest))
  /\ (forall line1 lat line2 rest,
        Py.float line1 = Py.ok lat ->
        Py.float line2 = Py.raise Py.ValueError ->
        get_location_by_coordinates (line1 :: line2 :: rest)
        = ([Print (Py.nl ++ "Enter your coordinates:");
            Prompt "Latitude (degrees, + for North, - for South): ";
            Prompt "Longitude (degrees, + for East, - for West): ";
            Print "Invalid input. Using default location."],
           Returned (40.7128, -74.0060)%float rest))
  /\ (forall stdin, ~ fatal (choose_nebula stdin))
  /\ (forall stdin, ~ fatal (explicit_time iso stdin))
  /\ (forall stdin, ~ fatal (get_location_by_coordinates stdin))
  /\ Py.int "abc" = Py.raise Py.ValueError
  /\ Py.float "abc" = Py.raise Py.ValueError
  /\ Py.float (String "028" "1.5") = Py.raise Py.ValueError
  /\ Py.int (String "029" "7") = Py.raise Py.ValueError
  /\ Py.int (Py.str_mul "1" 4301) = Py.raise Py.ValueError
  /\ (forall rest,
        get_location_by_coordinates (String "028" "1.5" :: rest)
        = ([Print (Py.nl ++ "Enter your coordinates:");
            Prompt "Latitude (degrees, + for North, - for South): ";
            Print "Invalid input. Using default location."],
           Returned (40.7128, -74.0060)%float rest)).
Proof.
  split; [apply choose_nebula_rejects|].
  split; [apply explicit_time_rejects|].
  split.
  { intros line rest H. unfold get_location_by_coordinates.
    cbn [input_float]. rewrite H. reflexivity. }
  split.
  { intros line1 lat line2 rest H1 H2. unfold get_location_by_coordinates.
    cbn [input_float]. rewrite H1. cbn [input_float]. rewrite H2. reflexivity. }
  split; [intros stdin; apply choose_nebula_quiet|].
  split; [intros stdin; apply explicit_time_quiet|].
  split; [apply get_location_by_coordinates_not_fatal|].
  split; [vm_compute; reflexivity|].
  split; [vm_compute; reflexivity|].
  split; [vm_compute; reflexivity|].
  split; [vm_compute; reflexivity|].
  split; [vm_compute; reflexivity|].
  intros rest. unfold get_location_by_coordinates. cbn [input_float].
  replace (Py.float (String "028" "1.5")) with (@Py.raise float Py.ValueError)
    by (vm_compute; reflexivity).
  reflexivity.
Qed.

(** C7 as stated fails: after the non-numeric latitude "abc" the only prompt
    ever shown is the latitude prompt, once; the dialogue is over, with the
    default location, and the next typed line is left unread. *)
Lemma bad_latitude_is_not_reprompted :
  prompts (fst (get_location_by_coordinates ["abc"; "10"]))
  = ["Latitude (degrees, + for North, - for South): "%string]
  /\ get_location_by_coordinates ["abc"; "10"]
     = ([Print (Py.nl ++ "Enter your coordinates:");
         Prompt "Latitude (degrees, + for North, - for South): ";
         Print "Invalid input. Using default location."],
        Returned (40.7128, -74.0060)%float ["10"%string]).
Proof. split; vm_compute; reflexivity. Qed.

(** * Further properties of the script *)

(** ** The classifiers outside the well-behaved inputs *)

Lemma is_nan_SF (x : float) :
  PrimFloat.is_nan x = true -> Prim2SF x = S754_nan.
Proof.
  unfold PrimFloat.is_nan. intros H. apply negb_true_iff in H.
  rewrite FloatAxioms.eqb_spec in H. unfold SFeqb in H. destruct (Prim2SF x) as [s|s| |s m e] eqn:E; [| |reflexivity|];
    rewrite SFcompare_refl in H by discriminate; discriminate.
Qed.

Lemma is_infinity_SF (x : float) :
  PrimFloat.is_infinity x = true -> exists s, Prim2SF x = S754_infinity s.
Proof.
  unfold PrimFloat.is_infinity. rewrite FloatAxioms.eqb_spec, abs_spec. unfold SFeqb.
  change (Prim2SF infinity) with (S754_infinity false).
  destruct (Prim2SF x) as [s|s| |s m e]; cbn; try discriminate. eauto.
Qed.

Lemma SF_isfinite_isfinite (x : float) :
  Py.SF_isfinite (Prim2SF x) = true -> Py.isfinite x = true.
Proof.
  intros H. unfold Py.isfinite.
  destruct (PrimFloat.is_nan x) eqn:En.
  { apply is_nan_SF in En. rewrite En in H. discriminate. }
  destruct (PrimFloat.is_infinity x) eqn:Ei; [|reflexivity].
  apply is_infinity_SF in Ei as [s Es]. rewrite Es in H. discriminate.
Qed.

Lemma ltb_nan_r (c x : float) :
  Prim2SF x = S754_nan -> PrimFloat.ltb c x = false.
Proof.
  intros H. rewrite ltb_spec, H. unfold SFltb.
  now destruct (Prim2SF c).
Qed.

Lemma ltb_nan_l (x c : float) :
  Prim2SF x = S754_nan -> PrimFloat.ltb x c = false.
Proof. intros H. rewrite ltb_spec, H. reflexivity. Qed.

Lemma rise_quotient_nan (alt : float) :
  Prim2SF alt = S754_nan -> Prim2SF ((0 - alt) / 15) = S754_nan.
Proof.
  intros H. rewrite div_spec, sub_spec, H. reflexivity.
Qed.

(** X1: the five tiers are ordered like the altitudes: a higher altitude
    never gets a lower tier. *)
Theorem calculate_visibility_monotone (a b : float) :
  Py.le a b = true ->
  (tier_rank (calculate_visibility a) <= tier_rank (calculate_visibility b))%nat.
Proof.
  unfold Py.le. intros Hab.
  assert (Hup : forall c, PrimFloat.ltb c a = true -> PrimFloat.ltb c b = true)
    by (intros c Hc; exact (ltb_leb_trans c a b Hc Hab)).
  unfold calculate_visibility, Py.gt.
  destruct (PrimFloat.ltb 30 a) eqn:A30.
  { rewrite (Hup 30%float A30). apply Nat.le_refl. }
  destruct (PrimFloat.ltb 15 a) eqn:A15.
  { rewrite (Hup 15%float A15). destruct (PrimFloat.ltb 30 b); cbn; lia. }
  destruct (PrimFloat.ltb 5 a) eqn:A5.
  { rewrite (Hup 5%float A5).
    destruct (PrimFloat.ltb 30 b); [cbn; lia|].
    destruct (PrimFloat.ltb 15 b); cbn; lia. }
  destruct (PrimFloat.ltb 0 a) eqn:A0.
  { rewrite (Hup 0%float A0).
    destruct (PrimFloat.ltb 30 b); [cbn; lia|].
    destruct (PrimFloat.ltb 15 b); [cbn; lia|].
    destruct (PrimFloat.ltb 5 b); cbn; lia. }
  change (tier_rank "Not visible - Below horizon") with 0%nat. lia.
Qed.

Lemma calculate_visibility_monotone_witness :
  Py.le 12 31 = true
  /\ (tier_rank (calculate_visibility 12) <= tier_rank (calculate_visibility 31))%nat.
Proof.
  split; [reflexivity|].
  apply (calculate_visibility_monotone 12 31). reflexivity.
Defined.

(** X2: [get_compass_direction] returns a compass point exactly on the
    finite azimuths; on a NaN it raises [ValueError], on an infinity
    [OverflowError] (both from [round]). *)
Theorem get_compass_direction_defined_iff (azimuth : float) :
  ((exists s, get_compass_direction azimuth = Py.ok s)
   <-> Py.isfinite azimuth = true)
  /\ (PrimFloat.is_nan azimuth = true ->
      get_compass_direction azimuth = Py.raise Py.ValueError)
  /\ (PrimFloat.is_infinity azimuth = true ->
      get_compass_direction azimuth = Py.raise Py.OverflowError).
Proof.
  assert (Hnan : PrimFloat.is_nan azimuth = true ->
                 get_compass_direction azimuth = Py.raise Py.ValueError).
  { intros H. apply is_nan_SF in H.
    unfold get_compass_direction, Py.bind, Py.round.
    rewrite div_spec, H. reflexivity. }
  assert (Hinf : PrimFloat.is_infinity azimuth = true ->
                 get_compass_direction azimuth = Py.raise Py.OverflowError).
  { intros H. apply is_infinity_SF in H as [s Hs].
    unfold get_compass_direction, Py.bind, Py.round.
    rewrite div_spec, Hs.
    change (Prim2SF 22.5) with (S754_finite false 6333186975989760 (-48)).
    reflexivity. }
  split; [|split; assumption].
  split.
  - intros [s Hs]. unfold Py.isfinite.
    destruct (PrimFloat.is_nan azimuth) eqn:En.
    { rewrite (Hnan eq_refl) in Hs. discriminate. }
    destruct (PrimFloat.is_infinity azimuth) eqn:Ei; [|reflexivity].
    rewrite (Hinf eq_refl) in Hs. discriminate.
  - intros Hfin.
    destruct (round_total (azimuth / 22.5)) as [r Hr].
    { apply (div_isfinite azimuth 22.5 false 6333186975989760 (-48));
        [reflexivity|cbn; lia|assumption]. }
    exists (nth (Z.to_nat (r mod 16)) compass_points ""%string).
    unfold get_compass_direction, Py.bind. rewrite Hr.
    apply getitem_compass_points.
Qed.

Lemma hours_till_rise_positive (alt : float) :
  PrimFloat.leb alt 0 = true -> Py.gt (hours_till_rise alt) 0 = true.
Proof.
  intros Hle. pose proof (rise_quotient_not_nan alt Hle) as Hq.
  unfold hours_till_rise, Py.max, Py.gt.
  destruct (PrimFloat.ltb ((0 - alt) / 15) 0.1) eqn:E; [reflexivity|].
  apply (ltb_false_positive _ 0.1 7205759403792794 (-56)); auto.
Qed.

Section AdviceFacts.

Variable iso : Time -> string.
Variable plus_hours : Time -> float -> Time.

(** X3: a NaN altitude is classified "Not visible"; [main] then takes the
    below-horizon branch, where the estimate is itself a NaN, the test
    [hours_till_rise > 0] fails and no rise time is printed. *)
Theorem nan_altitude_is_below_horizon (obs_time : Time) (alt : float) :
  PrimFloat.is_nan alt = true ->
  calculate_visibility alt = "Not visible - Below horizon"%string
  /\ PrimFloat.is_nan (hours_till_rise alt) = true
  /\ rise_time_is_reported alt = false
  /\ position_advice iso plus_hours obs_time alt
     = ([Print (Py.nl ++ "This nebula is currently below the horizon.");
         Print "Check again in a few hours!"], None).
Proof.
  intros H. apply is_nan_SF in H.
  assert (Hh : hours_till_rise alt = ((0 - alt) / 15)%float).
  { unfold hours_till_rise, Py.max, Py.gt.
    now rewrite (ltb_nan_l _ 0.1 (rise_quotient_nan alt H)). }
  assert (Hr : Py.gt (hours_till_rise alt) 0 = false).
  { rewrite Hh. unfold Py.gt. apply ltb_nan_r, rise_quotient_nan, H. }
  split; [|split; [|split]].
  - unfold calculate_visibility, Py.gt. now rewrite !(ltb_nan_r _ alt H).
  - rewrite Hh. unfold PrimFloat.is_nan. rewrite FloatAxioms.eqb_spec.
    now rewrite (rise_quotient_nan alt H).
  - exact Hr.
  - unfold position_advice. unfold Py.gt at 1.
    rewrite (ltb_nan_r 0 alt H). cbv zeta. now rewrite Hr.
Qed.

(** X4: above the horizon the advice line follows the visibility tier
    (Excellent: "Perfect time", Good: "Good time to observe", Fair and Poor:
    "Consider observing..."); the tip is added exactly below 20 degrees, so
    never with "Perfect time", and nothing is raised. *)
Theorem advice_follows_visibility (obs_time : Time) (alt : float) :
  Py.gt alt 0 = true ->
  position_advice iso plus_hours obs_time alt
  = ((Print (match tier_rank (calculate_visibility alt) with
             | 4%nat => "   * Perfect time for observation!"
             | 3%nat => "   * Good time to observe"
             | _ => "   * Consider observing when it's higher in the sky"
             end)
      :: (if PrimFloat.ltb alt 20 then
            [Print (Py.nl ++ "Tip: This nebula would be better observed when");
             Print "     it's higher in the sky (above 30 degrees altitude)."]
          else []))%list,
     None)
  /\ (PrimFloat.ltb alt 20 = true -> Py.gt alt 30 = false)
  /\ (1 <= tier_rank (calculate_visibility alt))%nat.
Proof.
  intros H0. unfold position_advice, calculate_visibility. rewrite H0.
  unfold Py.gt in *. rewrite H0. cbn [andb].
  split; [|split].
  - destruct (PrimFloat.ltb 30 alt); [reflexivity|].
    destruct (PrimFloat.ltb 15 alt); [reflexivity|].
    destruct (PrimFloat.ltb 5 alt); reflexivity.
  - intros H20. apply (leb_below alt 20 30); [|reflexivity].
    now apply ltb_true_leb_true.
  - destruct (PrimFloat.ltb 30 alt); [cbn; lia|].
    destruct (PrimFloat.ltb 15 alt); [cbn; lia|].
    destruct (PrimFloat.ltb 5 alt); cbn; lia.
Qed.

(** X5: for an altitude that compares [<= 0] the test [hours_till_rise > 0]
    always passes: the rise time is printed, taken from the second word of
    [rise_time.iso] cut to five characters; only an [iso] text without a
    second word breaks the block, with [IndexError]. *)
Theorem below_horizon_reports_rise_time (obs_time : Time) (alt : float) :
  Py.le alt 0 = true ->
  position_advice iso plus_hours obs_time alt
  = match Py.getitem
            (PyStr.split (iso (plus_hours obs_time (hours_till_rise alt)))) 1
    with
    | inr clock =>
        ([Print (Py.nl ++ "This nebula is currently below the horizon.");
          Print ("It will rise at approximately: "
                 ++ PyStr.slice_to 5 clock ++ " UTC");
          Print "Check again in a few hours!"], None)
    | inl e =>
        ([Print (Py.nl ++ "This nebula is currently below the horizon.")],
         Some e)
    end.
Proof.
  unfold Py.le. intros Hle. unfold position_advice.
  unfold Py.gt at 1. rewrite (leb_true_ltb_false _ _ Hle). cbv zeta.
  now rewrite (hours_till_rise_positive alt Hle).
Qed.

End AdviceFacts.

Lemma nan_altitude_is_below_horizon_witness :
  PrimFloat.is_nan nan = true
  /\ calculate_visibility nan = "Not visible - Below horizon"%string.
Proof.
  split; [reflexivity|].
  apply (nan_altitude_is_below_horizon (fun _ => EmptyString) (fun t _ => t) 0 nan
           eq_refl).
Defined.

Lemma advice_follows_visibility_witness :
  Py.gt 17 0 = true
  /\ position_advice (fun _ => EmptyString) (fun t _ => t) 0 17
     = ([Print "   * Good time to observe";
         Print (Py.nl ++ "Tip: This nebula would be better observed when");
         Print "     it's higher in the sky (above 30 degrees altitude)."],
        None).
Proof.
  split; [reflexivity|].
  exact (proj1 (advice_follows_visibility (fun _ => EmptyString) (fun t _ => t)
                  0 17 eq_refl)).
Defined.


Lemma below_horizon_reports_rise_time_witness :
  Py.le (-15) 0 = true
  /\ position_advice (fun _ => "2024-01-15 21:00:00.000"%string)
       (fun t _ => t) 0 (-15)
     = ([Print (Py.nl ++ "This nebula is currently below the horizon.");
         Print "It will rise at approximately: 21:00 UTC";
         Print "Check again in a few hours!"], None).
Proof.
  split; [reflexivity|].
  exact (below_horizon_reports_rise_time
           (fun _ => "2024-01-15 21:00:00.000"%string) (fun t _ => t) 0 (-15)
           eq_refl).
Defined.

(** ** The menus and the nebula prompt *)

Lemma choose_nebula_outcome (stdin : list string) :
  match snd (choose_nebula stdin) with
  | Raised _ _ => False
  | Pending =>
      Forall (fun s => forall c, Py.int s = Py.ok c -> c < 1 \/ 13 < c) stdin
  | Returned choice rest =>
      exists turned_down line,
        stdin = (turned_down ++ line :: rest)%list
        /\ Forall (fun s => forall c, Py.int s = Py.ok c -> c < 1 \/ 13 < c)
             turned_down
        /\ Py.int line = Py.ok choice
        /\ 1 <= choice <= 13
  end.
Proof.
  induction stdin as [|s stdin IH]; cbn [choose_nebula]; [constructor|].
  destruct (Py.int s) as [e|c] eqn:E.
  - apply int_raises_ValueError in E as Ee. subst e. cbn [emit snd].
    assert (Hs : forall c, Py.int s = Py.ok c -> c < 1 \/ 13 < c)
      by (intros c Hc; unfold Py.raise, Py.ok in *; congruence).
    destruct (snd (choose_nebula stdin)) as [c rest|e rest|].
    + destruct IH as (bad & line & -> & Hbad & Hl & Hr).
      exists (s :: bad)%list, line. repeat split; auto; lia.
    + exact IH.
    + constructor; assumption.
  - destruct ((1 <=? c) && (c <=? 13)) eqn:R; cbn [emit snd].
    + apply andb_true_iff in R as [R1 R2]. apply Z.leb_le in R1, R2.
      exists [], s. repeat split; auto.
    + assert (Hs : forall c', Py.int s = Py.ok c' -> c' < 1 \/ 13 < c').
      { intros c' Hc. unfold Py.ok in *. assert (c' = c) by congruence. subst c'.
        apply andb_false_iff in R as [R|R]; apply Z.leb_gt in R; lia. }
      destruct (snd (choose_nebula stdin)) as [c' rest|e rest|].
      * destruct IH as (bad & line & -> & Hbad & Hl & Hr).
        exists (s :: bad)%list, line. repeat split; auto; lia.
      * exact IH.
      * constructor; assumption.
Qed.

(** X6: the nebula prompt hands [main] the first typed line that [int]
    reads as a number from 1 to 13, every earlier line having been turned
    down; the lookup [NEBULAE[choice]] that follows then finds an entry, so
    no [KeyError] can occur. *)
Theorem select_nebula_finds_entry (stdin : list string)
  (selected : option Nebula.t) (rest : list string) :
  snd (select_nebula stdin) = Returned selected rest ->
  exists turned_down line choice nebula,
    stdin = (turned_down ++ line :: rest)%list
    /\ Forall (fun s => forall c, Py.int s = Py.ok c -> c < 1 \/ 13 < c)
         turned_down
    /\ Py.int line = Py.ok choice
    /\ 1 <= choice <= 13
    /\ dict_getitem NEBULAE choice = Some nebula
    /\ selected = Some nebula.
Proof.
  unfold select_nebula, and_then. pose proof (choose_nebula_outcome stdin) as Ho.
  destruct (choose_nebula stdin) as [evs [c rest'|e rest'|]]; cbn [fst snd] in *;
    try discriminate.
  intros [= <- <-]. destruct Ho as (bad & line & -> & Hbad & Hl & Hr).
  assert (Hn : exists neb, dict_getitem NEBULAE c = Some neb).
  { assert (Hc : c = 1 \/ c = 2 \/ c = 3 \/ c = 4 \/ c = 5 \/ c = 6 \/ c = 7
                 \/ c = 8 \/ c = 9 \/ c = 10 \/ c = 11 \/ c = 12 \/ c = 13)
      by lia.
    repeat (destruct Hc as [->|Hc]; [cbn; eauto|]). subst c. cbn. eauto. }
  destruct Hn as [neb Hn].
  exists bad, line, c, neb. repeat split; auto; lia.
Qed.

Lemma select_nebula_finds_entry_witness :
  snd (select_nebula [String "029" "7"; "abc"; "14"; " 7 "; "y"])
  = Returned (Some (Nebula.mk "Veil Nebula (NGC 6960)" "20h45m38.0s"
                      "+30d42m30s" "Cygnus")) ["y"%string]
  /\ exists turned_down line choice nebula,
       [String "029" "7"; "abc"; "14"; " 7 "; "y"]%string
       = (turned_down ++ line :: ["y"%string])%list
       /\ Forall (fun s => forall c, Py.int s = Py.ok c -> c < 1 \/ 13 < c)
            turned_down
       /\ Py.int line = Py.ok choice
       /\ 1 <= choice <= 13
       /\ dict_getitem NEBULAE choice = Some nebula
       /\ Some (Nebula.mk "Veil Nebula (NGC 6960)" "20h45m38.0s"
                  "+30d42m30s" "Cygnus") = Some nebula.
Proof.
  split; [reflexivity|].
  apply (select_nebula_finds_entry [String "029" "7"; "abc"; "14"; " 7 "; "y"]).
  reflexivity.
Defined.

(** The two menu loops share their shape: here is what each returns. *)
Lemma location_choice_outcome (stdin : list string) :
  match snd (location_choice stdin) with
  | Raised _ _ => False
  | Pending =>
      Forall (fun s => Py.strip s <> "1"%string /\ Py.strip s <> "2"%string) stdin
  | Returned choice rest =>
      (choice = "1"%string \/ choice = "2"%string)
      /\ exists skipped line,
           stdin = (skipped ++ line :: rest)%list
           /\ Py.strip line = choice
           /\ Forall (fun s => Py.strip s <> "1"%string
                               /\ Py.strip s <> "2"%string) skipped
  end.
Proof.
  induction stdin as [|s stdin IH]; cbn [location_choice]; [constructor|].
  destruct (String.eqb (Py.strip s) "1") eqn:E1.
  { cbn [orb emit snd]. apply String.eqb_eq in E1.
    split; [auto|]. exists [], s. repeat split; auto. }
  destruct (String.eqb (Py.strip s) "2") eqn:E2.
  { cbn [orb emit snd]. apply String.eqb_eq in E2.
    split; [auto|]. exists [], s. repeat split; auto. }
  cbn [orb emit snd]. apply String.eqb_neq in E1, E2.
  destruct (snd (location_choice stdin)) as [c rest|e rest|].
  - destruct IH as (Hc & skipped & line & -> & Hl & Hs).
    split; [exact Hc|]. exists (s :: skipped)%list, line. repeat split; auto.
  - exact IH.
  - constructor; auto.
Qed.

Lemma time_choice_outcome (stdin : list string) :
  match snd (time_choice stdin) with
  | Raised _ _ => False
  | Pending =>
      Forall (fun s => ~ In (Py.strip s) ["1"; "2"; "3"]%string) stdin
  | Returned choice rest =>
      In choice ["1"; "2"; "3"]%string
      /\ exists skipped line,
           stdin = (skipped ++ line :: rest)%list
           /\ Py.strip line = choice
           /\ Forall (fun s => ~ In (Py.strip s) ["1"; "2"; "3"]%string) skipped
  end.
Proof.
  assert (Hin : forall c, existsb (String.eqb c) ["1"; "2"; "3"]%string = true
                          <-> In c ["1"; "2"; "3"]%string).
  { intros c. rewrite existsb_exists. split.
    - intros (x & Hx & E). apply String.eqb_eq in E. now subst.
    - intros H. exists c. split; [assumption|apply String.eqb_refl]. }
  induction stdin as [|s stdin IH]; cbn [time_choice]; [constructor|].
  destruct (existsb (String.eqb (Py.strip s)) ["1"; "2"; "3"]%string) eqn:E.
  - cbn [emit snd]. apply Hin in E. split; [exact E|].
    exists [], s. repeat split; auto.
  - cbn [emit snd].
    assert (Hn : ~ In (Py.strip s) ["1"; "2"; "3"]%string).
    { intros H. apply Hin in H. congruence. }
    destruct (snd (time_choice stdin)) as [c rest|e rest|].
    + destruct IH as (Hc & skipped & line & -> & Hl & Hs).
      split; [exact Hc|]. exists (s :: skipped)%list, line. repeat split; auto.
    + exact IH.
    + constructor; auto.
Qed.

(** X7: both menus skip every line that is not one of their choices once
    stripped, and return the first one that is: the location menu only ever
    returns "1" or "2", the time menu "1", "2" or "3". *)
Theorem menus_return_a_listed_choice (stdin : list string) :
  (forall choice rest,
     snd (location_choice stdin) = Returned choice rest ->
     (choice = "1"%string \/ choice = "2"%string)
     /\ exists skipped line,
          stdin = (skipped ++ line :: rest)%list
          /\ Py.strip line = choice
          /\ Forall (fun s => Py.strip s <> "1"%string
                              /\ Py.strip s <> "2"%string) skipped)
  /\ (forall choice rest,
        snd (time_choice stdin) = Returned choice rest ->
        In choice ["1"; "2"; "3"]%string
        /\ exists skipped line,
             stdin = (skipped ++ line :: rest)%list
             /\ Py.strip line = choice
             /\ Forall (fun s => ~ In (Py.strip s) ["1"; "2"; "3"]%string)
                  skipped)
  /\ (snd (location_choice stdin) = Pending
      <-> Forall (fun s => Py.strip s <> "1"%string /\ Py.strip s <> "2"%string)
            stdin)
  /\ (snd (time_choice stdin) = Pending
      <-> Forall (fun s => ~ In (Py.strip s) ["1"; "2"; "3"]%string) stdin).
Proof.
  pose proof (location_choice_outcome stdin) as HL.
  pose proof (time_choice_outcome stdin) as HT.
  split; [|split; [|split]].
  - intros c rest E. now rewrite E in HL.
  - intros c rest E. now rewrite E in HT.
  - split.
    + intros E. now rewrite E in HL.
    + intros HF. destruct (snd (location_choice stdin)) as [c rest|e rest|];
        [|contradiction|reflexivity].
      destruct HL as (Hc & skipped & line & -> & Hl & _).
      apply Forall_app in HF as [_ HF]. inversion HF as [|? ? [H1 H2] _]; subst.
      destruct Hc; congruence.
  - split.
    + intros E. now rewrite E in HT.
    + intros HF. destruct (snd (time_choice stdin)) as [c rest|e rest|];
        [|contradiction|reflexivity].
      destruct HT as (Hc & skipped & line & -> & Hl & _).
      apply Forall_app in HF as [_ HF]. inversion HF as [|? ? Hn _]; subst.
      contradiction.
Qed.

(** X8: when the location menu is answered "2", [get_user_location] is the
    coordinate dialogue on the lines that follow, and the geocoding service
    is never contacted, whatever it would have answered. *)
Theorem coordinate_entry_never_geocodes
  (geocode : nat -> string -> Z -> geocoded) (stdin rest : list string) :
  snd (location_choice stdin) = Returned "2"%string rest ->
  get_user_location geocode stdin
  = emit ([Print (Py.nl ++ "How would you like to enter your location?");
           Print "1. City and Country (e.g., 'Tokyo, Japan')";
           Print "2. Coordinates (latitude and longitude)"]
          ++ fst (location_choice stdin))%list
      (get_location_by_coordinates rest)
  /\ geocode_calls (fst (get_user_location geocode stdin)) = [].
Proof.
  intros H.
  assert (E : get_user_location geocode stdin
              = emit ([Print (Py.nl ++ "How would you like to enter your location?");
                       Print "1. City and Country (e.g., 'Tokyo, Japan')";
                       Print "2. Coordinates (latitude and longitude)"]
                      ++ fst (location_choice stdin))%list
                  (get_location_by_coordinates rest)).
  { unfold get_user_location, and_then. rewrite H. reflexivity. }
  split; [exact E|]. rewrite E. unfold emit. cbn [fst].
  rewrite !geocode_calls_app, get_location_by_coordinates_no_calls.
  destruct (location_choice_quiet stdin) as [-> _]. reflexivity.
Qed.

Lemma coordinate_entry_never_geocodes_witness :
  snd (location_choice ["x"; " 2"; "51.5"; "-0.12"])
  = Returned "2"%string ["51.5"; "-0.12"]%string
  /\ geocode_calls
       (fst (get_user_location (fun _ _ _ => ServiceError)
               ["x"; " 2"; "51.5"; "-0.12"])) = [].
Proof.
  split; [reflexivity|].
  exact (proj2 (coordinate_entry_never_geocodes (fun _ _ _ => ServiceError)
                  ["x"; " 2"; "51.5"; "-0.12"] ["51.5"; "-0.12"] eq_refl)).
Defined.

(** ** More on the location dialogues *)

Section CityFacts2.

Variable geocode : nat -> string -> Z -> geocoded.

Lemma city_loop_queries (stdin : list string) : forall calls q t a,
  In (q, t, a) (geocode_calls (fst (get_location_by_city_loop geocode calls stdin))) ->
  q <> ""%string
  /\ (exists line, In line stdin /\ q = Py.strip line)
  /\ exists k, (calls <= k)%nat /\ a = geocode k q 10.
Proof.
  induction stdin as [|line rest IH]; intros calls q t a;
    cbn [get_location_by_city_loop]; [intros []|].
  unfold emit at 1. cbn [fst app geocode_calls flat_map].
  destruct (String.eqb (Py.strip line) "") eqn:Eb; [intros []|].
  apply String.eqb_neq in Eb.
  unfold emit at 1. cbn [fst app geocode_calls flat_map].
  intros [[= <- <- <-]|Hin].
  { split; [assumption|]. split; [exists line; cbn; auto|].
    exists calls. split; [lia|reflexivity]. }
  destruct (geocode calls (Py.strip line) 10); try (now destruct Hin).
  unfold emit in Hin. cbn [fst app flat_map] in Hin.
  destruct (IH (S calls) q t a Hin) as (Hq & (l & Hl & El) & (k & Hk & Ea)).
  split; [assumption|]. split; [exists l; cbn; auto|].
  exists k. split; [lia|assumption].
Qed.

Lemma city_loop_not_found (stdin : list string) : forall calls,
  (forall k q, geocode k q 10 = NotFound) ->
  Forall (fun line => Py.strip line <> ""%string) stdin ->
  snd (get_location_by_city_loop geocode calls stdin) = Pending
  /\ List.length
       (geocode_calls (fst (get_location_by_city_loop geocode calls stdin)))
     = List.length stdin.
Proof.
  intros calls Hnf Hall. revert calls.
  induction Hall as [|line rest Hline Hrest IH]; intros calls;
    cbn [get_location_by_city_loop]; [split; reflexivity|].
  apply String.eqb_neq in Hline. rewrite Hline, Hnf.
  destruct (IH (S calls)) as [IHs IHl].
  split; [exact IHs|].
  unfold emit. cbn [fst app geocode_calls flat_map List.length].
  f_equal. exact IHl.
Qed.

Lemma city_loop_result (stdin : list string) : forall calls p rest,
  snd (get_location_by_city_loop geocode calls stdin) = Returned p rest ->
  p = (40.7128, -74.0060)%float
  \/ exists evs q location,
       fst (get_location_by_city_loop geocode calls stdin)
       = (evs ++ [Geocode q 10 (Found location);
                  Print ("Found: " ++ address location)])%list
       /\ p = (latitude location, longitude location).
Proof.
  induction stdin as [|line stdin IH]; intros calls p rest;
    cbn [get_location_by_city_loop]; [discriminate|].
  destruct (String.eqb (Py.strip line) ""); cbn [emit snd fst].
  { intros [= <- _]. now left. }
  destruct (geocode calls (Py.strip line) 10) as [loc| | | |msg];
    cbn [emit snd fst app]; try (intros [= <- _]; now left).
  - intros [= <- _]. right.
    exists [Prompt "Location: "; Print "Geocoding your location..."],
      (Py.strip line), loc. split; reflexivity.
  - intros H. destruct (IH (S calls) p rest H) as [Hd|(evs & q & loc & E & Hp)];
      [now left|right].
    exists ([Prompt "Location: "; Print "Geocoding your location...";
             Geocode (Py.strip line) 10 NotFound;
             Print "Location not found. Please try again.";
             Print "Try being more specific (add country name)"] ++ evs)%list,
      q, loc.
    split; [|exact Hp]. rewrite E. reflexivity.
Qed.

(** X9: every request [get_location_by_city] sends to the geocoding
    service asks for a typed line stripped of its surrounding whitespace,
    never for the empty string, and the answer recorded is the service's. *)
Theorem city_queries_are_stripped_lines (stdin : list string) (q : string)
  (t : Z) (a : geocoded) :
  In (q, t, a) (geocode_calls (fst (get_location_by_city geocode stdin))) ->
  q <> ""%string
  /\ (exists line, In line stdin /\ q = Py.strip line)
  /\ exists k, a = geocode k q 10.
Proof.
  unfold get_location_by_city, emit. cbn [fst app geocode_calls flat_map].
  intros H. destruct (city_loop_queries stdin 0 q t a H)
    as (Hq & Hl & (k & _ & Ha)).
  eauto.
Qed.

(** X10: "not found" is no reason to fall back: as long as the service
    finds nothing and the user keeps typing non-blank lines, the dialogue
    sends one request per line and goes on asking. *)
Theorem not_found_keeps_asking (stdin : list string) :
  (forall k q, geocode k q 10 = NotFound) ->
  Forall (fun line => Py.strip line <> ""%string) stdin ->
  snd (get_location_by_city geocode stdin) = Pending
  /\ List.length (geocode_calls (fst (get_location_by_city geocode stdin)))
     = List.length stdin.
Proof.
  intros Hnf Hall. unfold get_location_by_city, emit.
  cbn [fst snd app geocode_calls flat_map].
  exact (city_loop_not_found stdin 0 Hnf Hall).
Qed.

(** X11: what [get_location_by_city] returns is either the default location
    or the latitude and longitude of the place the service found, which is
    then the last request of the trace, followed by the line "Found: ..."
    with its address. *)
Theorem city_returns_default_or_found (stdin : list string)
  (p : float * float) (rest : list string) :
  snd (get_location_by_city geocode stdin) = Returned p rest ->
  p = (40.7128, -74.0060)%float
  \/ exists evs q location,
       fst (get_location_by_city geocode stdin)
       = (evs ++ [Geocode q 10 (Found location);
                  Print ("Found: " ++ address location)])%list
       /\ p = (latitude location, longitude location).
Proof.
  unfold get_location_by_city. cbn [emit snd fst]. intros H.
  destruct (city_loop_result stdin 0 p rest H) as [Hd|(evs & q & loc & E & Hp)];
    [now left|right].
  exists ([Print (Py.nl ++ "Enter your location (you can be specific):");
           Print "Examples: 'New York, USA', 'Tokyo, Japan', 'London, UK'";
           Print "          'Paris, France', 'Sydney, Australia'"] ++ evs)%list,
    q, loc.
  split; [|exact Hp]. rewrite E. reflexivity.
Qed.

End CityFacts2.

Lemma city_queries_are_stripped_lines_witness :
  In ("Tokyo, Japan"%string, 10, TimedOut)
    (geocode_calls
       (fst (get_location_by_city (fun _ _ _ => TimedOut) ["  Tokyo, Japan "])))
  /\ "Tokyo, Japan"%string <> ""%string.
Proof.
  split; [left; reflexivity|].
  apply (city_queries_are_stripped_lines (fun _ _ _ => TimedOut)
           ["  Tokyo, Japan "] "Tokyo, Japan" 10 TimedOut).
  left. reflexivity.
Defined.

Lemma not_found_keeps_asking_witness :
  Forall (fun line => Py.strip line <> ""%string) ["Atlantis"; " El Dorado"]
  /\ snd (get_location_by_city (fun _ _ _ => NotFound) ["Atlantis"; " El Dorado"])
     = Pending.
Proof.
  assert (H : Forall (fun line => Py.strip line <> ""%string)
                ["Atlantis"; " El Dorado"])
    by (repeat constructor; discriminate).
  split; [exact H|].
  exact (proj1 (not_found_keeps_asking (fun _ _ _ => NotFound)
                  ["Atlantis"; " El Dorado"] (fun _ _ => eq_refl) H)).
Defined.

Lemma city_returns_default_or_found_witness :
  snd (get_location_by_city
         (fun _ q _ => if String.eqb q "Paris"
                       then Found {| address := "Paris, France";
                                     latitude := 48.8566; longitude := 2.3522 |}
                       else NotFound)
         ["Lutetia"; "Paris"; "y"])
  = Returned (48.8566, 2.3522)%float ["y"%string]
  /\ ((48.8566, 2.3522)%float = (40.7128, -74.0060)%float
      \/ exists evs q location,
           fst (get_location_by_city
                  (fun _ q _ => if String.eqb q "Paris"
                                then Found {| address := "Paris, France";
                                              latitude := 48.8566;
                                              longitude := 2.3522 |}
                                else NotFound)
                  ["Lutetia"; "Paris"; "y"])
           = (evs ++ [Geocode q 10 (Found location);
                      Print ("Found: " ++ address location)])%list
           /\ (48.8566, 2.3522)%float = (latitude location, longitude location)).
Proof.
  split; [reflexivity|].
  apply (city_returns_default_or_found _ ["Lutetia"; "Paris"; "y"]
           (48.8566, 2.3522)%float ["y"%string]).
  reflexivity.
Defined.

(** X12: [get_location_by_coordinates] reads at most two lines and checks
    no range: when it returns, either both lines parsed and the pair is
    exactly what [float] read (a latitude of 999 or a NaN included), or one
    of them did not parse and the pair is the default location. *)
Theorem coordinates_are_taken_as_typed (stdin : list string)
  (p : float * float) (rest : list string) :
  snd (get_location_by_coordinates stdin) = Returned p rest ->
  (exists line1 line2 lat lon,
     stdin = line1 :: line2 :: rest
     /\ Py.float line1 = Py.ok lat /\ Py.float line2 = Py.ok lon
     /\ p = (lat, lon))
  \/ (p = (40.7128, -74.0060)%float
      /\ ((exists line1,
             stdin = line1 :: rest /\ Py.float line1 = Py.raise Py.ValueError)
          \/ exists line1 line2 lat,
               stdin = line1 :: line2 :: rest
               /\ Py.float line1 = Py.ok lat
               /\ Py.float line2 = Py.raise Py.ValueError)).
Proof.
  unfold get_location_by_coordinates. cbn [emit snd].
  destruct stdin as [|l1 stdin]; cbn [input_float snd]; [discriminate|].
  destruct (Py.float l1) as [e1|lat] eqn:E1.
  - apply float_raises_ValueError in E1 as Ee. subst e1. cbn [emit snd].
    intros [= <- <-]. right. split; [reflexivity|]. left. eauto.
  - cbn [emit snd]. destruct stdin as [|l2 stdin]; cbn [input_float snd];
      [discriminate|].
    destruct (Py.float l2) as [e2|lon] eqn:E2.
    + apply float_raises_ValueError in E2 as Ee. subst e2. cbn [emit snd].
      intros [= <- <-]. right. split; [reflexivity|]. right.
      exists l1, l2, lat. auto.
    + cbn [emit snd]. intros [= <- <-]. left. exists l1, l2, lat, lon. auto.
Qed.

Lemma coordinates_are_taken_as_typed_witness :
  snd (get_location_by_coordinates ["999"; "nan"; "1"])
  = Returned (999, nan)%float ["1"%string]
  /\ ((exists line1 line2 lat lon,
         ["999"; "nan"; "1"]%string = line1 :: line2 :: ["1"%string]
         /\ Py.float line1 = Py.ok lat /\ Py.float line2 = Py.ok lon
         /\ (999, nan)%float = (lat, lon))
      \/ ((999, nan)%float = (40.7128, -74.0060)%float
          /\ ((exists line1,
                 ["999"; "nan"; "1"]%string = line1 :: ["1"%string]
                 /\ Py.float line1 = Py.raise Py.ValueError)
              \/ exists line1 line2 lat,
                   ["999"; "nan"; "1"]%string = line1 :: line2 :: ["1"%string]
                   /\ Py.float line1 = Py.ok lat
                   /\ Py.float line2 = Py.raise Py.ValueError)))
  /\ snd (get_location_by_coordinates [String "028" "1.5"; "abc"])
     = Returned (40.7128, -74.0060)%float ["abc"%string]
  /\ prompts (fst (get_location_by_coordinates [String "028" "1.5"; "abc"]))
     = ["Latitude (degrees, + for North, - for South): "%string].
Proof.
  split; [vm_compute; reflexivity|]. split.
  - apply (coordinates_are_taken_as_typed ["999"; "nan"; "1"] (999, nan)%float
             ["1"%string]).
    vm_compute. reflexivity.
  - split; vm_compute; reflexivity.
Defined.

(** ** A well-formed timestamp is accepted *)

(** A property of every integer of a range, checked value by value. *)
Lemma range_cases (P : Z -> Prop) (n : nat) :
  Forall P (List.map Z.of_nat (seq 0 n)) ->
  forall k, 0 <= k < Z.of_nat n -> P k.
Proof.
  intros H k Hk. rewrite Forall_forall in H. apply H.
  apply in_map_iff. exists (Z.to_nat k). split; [lia|].
  apply in_seq. lia.
Qed.

Lemma hd_error_flat_map {A B : Type} (f : A -> list B) (l : list A) (x : A)
  (y : B) :
  hd_error l = Some x -> hd_error (f x) = Some y ->
  hd_error (flat_map f l) = Some y.
Proof.
  destruct l as [|a l]; cbn; [discriminate|]. intros [= ->].
  destruct (f x) as [|b l']; cbn; [discriminate|]. now intros [= ->].
Qed.

Lemma hd_error_map {A B : Type} (f : A -> B) (l : list A) (x : A) :
  hd_error l = Some x -> hd_error (List.map f l) = Some (f x).
Proof. destruct l; cbn; [discriminate|]. now intros [= ->]. Qed.

Lemma re_two_digits (n : Z) (s : string) :
  0 <= n < 60 ->
  hd_error (Datetime.re_M (two_digits n ++ s)) = Some (n, s)
  /\ hd_error (Datetime.re_S (two_digits n ++ s)) = Some (n, s)
  /\ (n < 24 -> hd_error (Datetime.re_H (two_digits n ++ s)) = Some (n, s))
  /\ (n < 24 ->
      hd_error (Datetime.spaces (" " ++ two_digits n ++ s))
      = Some (two_digits n ++ s)%string)
  /\ (1 <= n <= 31 -> hd_error (Datetime.re_d (two_digits n ++ s)) = Some (n, s))
  /\ (1 <= n <= 12 -> hd_error (Datetime.re_m (two_digits n ++ s)) = Some (n, s)).
Proof.
  intros Hn. revert s. revert n Hn.
  apply (range_cases
           (fun n => forall s,
              hd_error (Datetime.re_M (two_digits n ++ s)) = Some (n, s)
              /\ hd_error (Datetime.re_S (two_digits n ++ s)) = Some (n, s)
              /\ (n < 24 -> hd_error (Datetime.re_H (two_digits n ++ s)) = Some (n, s))
              /\ (n < 24 ->
                  hd_error (Datetime.spaces (" " ++ two_digits n ++ s))
                  = Some (two_digits n ++ s)%string)
              /\ (1 <= n <= 31 ->
                  hd_error (Datetime.re_d (two_digits n ++ s)) = Some (n, s))
              /\ (1 <= n <= 12 ->
                  hd_error (Datetime.re_m (two_digits n ++ s)) = Some (n, s)))
           60).
  cbv [seq List.map Z.of_nat Pos.of_succ_nat Pos.succ].
  repeat (apply Forall_cons;
          [intros s; repeat split; intros; first [reflexivity | lia]|]).
  apply Forall_nil.
Qed.

Lemma digit_char_digit (k : Z) :
  0 <= k <= 9 ->
  Py.isdigit (digit_char k) = true /\ Py.digit (digit_char k) = k.
Proof.
  intros Hk.
  assert (H : k = 0 \/ k = 1 \/ k = 2 \/ k = 3 \/ k = 4 \/ k = 5 \/ k = 6
              \/ k = 7 \/ k = 8 \/ k = 9) by lia.
  repeat (destruct H as [->|H]; [split; reflexivity|]). subst.
  split; reflexivity.
Qed.

Lemma re_four_digits (y : Z) (s : string) :
  0 <= y <= 9999 -> Datetime.re_Y (four_digits y ++ s) = [(y, s)].
Proof.
  intros Hy. unfold four_digits, two_digits. cbn [append Datetime.re_Y].
  destruct (digit_char_digit (y / 100 / 10)) as [I1 D1];
    [Z.to_euclidean_division_equations; lia|].
  destruct (digit_char_digit ((y / 100) mod 10)) as [I2 D2];
    [Z.to_euclidean_division_equations; lia|].
  destruct (digit_char_digit (y mod 100 / 10)) as [I3 D3];
    [Z.to_euclidean_division_equations; lia|].
  destruct (digit_char_digit ((y mod 100) mod 10)) as [I4 D4];
    [Z.to_euclidean_division_equations; lia|].
  rewrite I1, I2, I3, I4, D1, D2, D3, D4. cbn [andb].
  do 2 f_equal. Z.to_euclidean_division_equations. lia.
Qed.

Lemma days_in_month_le_31 (y m : Z) : Datetime.days_in_month y m <= 31.
Proof.
  unfold Datetime.days_in_month.
  destruct ((m =? 2) && Datetime.is_leap y); [lia|].
  destruct (Z.to_nat m) as [|[|[|[|[|[|[|[|[|[|[|[|[|n]]]]]]]]]]]]];
    cbn; try lia.
  destruct n; cbn; lia.
Qed.

Lemma matches_timestamp (y m d hh mm ss : Z) :
  Datetime.valid y m d hh mm ss = true ->
  hd_error (Datetime.matches (timestamp y m d hh mm ss))
  = Some (y, m, d, hh, mm, ss, EmptyString).
Proof.
  unfold Datetime.valid. rewrite !andb_true_iff, !Z.leb_le.
  intros (((((((((((Hy1 & Hy2) & Hm1) & Hm2) & Hd1) & Hd2) & Hh1) & Hh2)
              & Hi1) & Hi2) & Hs1) & Hs2).
  pose proof (days_in_month_le_31 y m) as Hdm.
  unfold Datetime.matches, timestamp.
  rewrite re_four_digits by lia. cbn [flat_map app].
  rewrite app_nil_r.
  change (Datetime.lit "-" ("-" ++ ?s)) with [s]. cbn [flat_map app].
  rewrite app_nil_r.
  destruct (re_two_digits m
              ("-" ++ two_digits d ++ " " ++ two_digits hh ++ ":"
               ++ two_digits mm ++ ":" ++ two_digits ss)%string ltac:(lia))
    as (_ & _ & _ & _ & _ & Hm).
  apply (hd_error_flat_map _ _ _ _ (Hm ltac:(lia))).
  change (Datetime.lit "-" ("-" ++ ?s)) with [s]. cbn [flat_map app].
  rewrite app_nil_r.
  destruct (re_two_digits d
              (" " ++ two_digits hh ++ ":" ++ two_digits mm ++ ":"
               ++ two_digits ss)%string ltac:(lia))
    as (_ & _ & _ & _ & Hd & _).
  apply (hd_error_flat_map _ _ _ _ (Hd ltac:(lia))).
  destruct (re_two_digits hh
              (":" ++ two_digits mm ++ ":" ++ two_digits ss)%string ltac:(lia))
    as (_ & _ & Hh & Hsp & _ & _).
  apply (hd_error_flat_map _ _ _ _ (Hsp ltac:(lia))).
  apply (hd_error_flat_map _ _ _ _ (Hh ltac:(lia))).
  change (Datetime.lit ":" (":" ++ ?s)) with [s]. cbn [flat_map app].
  rewrite app_nil_r.
  destruct (re_two_digits mm (":" ++ two_digits ss)%string ltac:(lia))
    as (Hi & _).
  apply (hd_error_flat_map _ _ _ _ Hi).
  change (Datetime.lit ":" (":" ++ ?s)) with [s]. cbn [flat_map app].
  rewrite app_nil_r.
  destruct (re_two_digits ss EmptyString ltac:(lia)) as (_ & Hs & _).
  change (two_digits ss ++ "")%string with (two_digits ss) in Hs.
  exact (hd_error_map _ _ _ Hs).
Qed.

(** X13: a date and time of the calendar, typed the way the prompt asks
    (four digits, then two for each field), is accepted at the first try:
    [strptime] returns its fields and the loop returns its instant. *)
Theorem well_formed_timestamp_is_accepted (iso : Time -> string)
  (y m d hh mm ss : Z) (rest : list string) :
  Datetime.valid y m d hh mm ss = true ->
  Datetime.strptime (timestamp y m d hh mm ss)
  = Py.ok (Datetime.mk y m d hh mm ss None)
  /\ explicit_time iso (timestamp y m d hh mm ss :: rest)
     = ([Prompt "Enter date and time (YYYY-MM-DD HH:MM:SS): ";
         Print ("Using specified time: "
                ++ iso (Time_of_datetime
                          (Datetime.mk y m d hh mm ss (Some Datetime.UTC))))],
        Returned (Time_of_datetime
                    (Datetime.mk y m d hh mm ss (Some Datetime.UTC))) rest).
Proof.
  intros Hv.
  assert (E : Datetime.strptime (timestamp y m d hh mm ss)
              = Py.ok (Datetime.mk y m d hh mm ss None)).
  { pose proof (matches_timestamp y m d hh mm ss Hv) as Hm.
    unfold Datetime.strptime.
    destruct (Datetime.matches (timestamp y m d hh mm ss)) as [|h t];
      [discriminate|].
    cbn in Hm. injection Hm as ->. now rewrite Hv. }
  split; [exact E|]. cbn [explicit_time]. rewrite E. reflexivity.
Qed.

Lemma well_formed_timestamp_is_accepted_witness :
  Datetime.valid 2024 2 29 23 59 59 = true
  /\ Datetime.strptime "2024-02-29 23:59:59"
     = Py.ok (Datetime.mk 2024 2 29 23 59 59 None).
Proof.
  split; [reflexivity|].
  exact (proj1 (well_formed_timestamp_is_accepted (fun _ => ""%string)
                  2024 2 29 23 59 59 [] eq_refl)).
Defined.

(** ** The catalogue *)

Lemma dict_getitem_In {V : Type} (d : list (Z * V)) (key : Z) (v : V) :
  dict_getitem d key = Some v -> In (key, v) d.
Proof.
  induction d as [|[k w] d IH]; cbn [dict_getitem]; [discriminate|].
  destruct (Z.eqb_spec k key) as [->|_].
  - intros [= ->]. now left.
  - intros H. right. auto.
Qed.

(** X14: the three season lists of the menu name every key of the catalogue
    exactly once, each of them is found in [NEBULAE], and so the menu is
    printed without a [KeyError]: 13 nebula lines under 6 headings. *)
Theorem menu_lists_every_nebula_once :
  Permutation (winter_nebulae ++ summer_nebulae ++ autumn_nebulae)
    (List.map fst NEBULAE)
  /\ NoDup (List.map fst NEBULAE)
  /\ (forall key, In key (winter_nebulae ++ summer_nebulae ++ autumn_nebulae) ->
      exists nebula, dict_getitem NEBULAE key = Some nebula)
  /\ exists lines, print_menu = Some lines /\ List.length lines = 19%nat.
Proof.
  assert (Hnd : NoDup (List.map fst NEBULAE)).
  { cbn. repeat (constructor; [cbn; lia|]). constructor. }
  split; [|split; [exact Hnd|split]].
  - apply NoDup_Permutation; [|exact Hnd|].
    + cbn. repeat (constructor; [cbn; lia|]). constructor.
    + intros x. cbn. tauto.
  - intros key H. cbn in H.
    repeat (destruct H as [<-|H]; [cbn; eauto|]). contradiction.
  - eexists. split; [vm_compute; reflexivity|reflexivity].
Qed.

(** X15: two different nebulae of the catalogue never share a report file:
    the first word of every name exists (no [IndexError]) and the thirteen
    first words are distinct. *)
Theorem report_filenames_are_distinct (key1 key2 : Z) (n1 n2 : Nebula.t) :
  dict_getitem NEBULAE key1 = Some n1 ->
  dict_getitem NEBULAE key2 = Some n2 ->
  (exists filename, report_filename n1 = Py.ok filename)
  /\ (report_filename n1 = report_filename n2 -> key1 = key2).
Proof.
  intros H1 H2. apply dict_getitem_In in H1, H2.
  pose (same := fun a b : Py.result string =>
                  match a, b with
                  | inr x, inr y => String.eqb x y
                  | _, _ => false
                  end).
  assert (Hall : forallb (fun p =>
                   match report_filename (snd p) with
                   | inr _ => true
                   | inl _ => false
                   end
                   && forallb (fun q =>
                        implb (same (report_filename (snd p))
                                 (report_filename (snd q)))
                          (fst p =? fst q)) NEBULAE) NEBULAE = true)
    by (vm_compute; reflexivity).
  rewrite forallb_forall in Hall. specialize (Hall _ H1).
  apply andb_true_iff in Hall as [Hok Hall]. cbn [fst snd] in *.
  rewrite forallb_forall in Hall. specialize (Hall _ H2). cbn [fst snd] in Hall.
  destruct (report_filename n1) as [e|f1] eqn:E1; [discriminate|].
  split; [now exists f1|].
  intros E. rewrite <- E in Hall. cbn [same] in Hall.
  rewrite String.eqb_refl in Hall. cbn [implb] in Hall.
  now apply Z.eqb_eq.
Qed.

Lemma report_filenames_are_distinct_witness :
  dict_getitem NEBULAE 5
  = Some (Nebula.mk "North America Nebula (NGC 7000)" "20h59m17.1s"
            "+44d31m44s" "Cygnus")
  /\ report_filename (Nebula.mk "North America Nebula (NGC 7000)" "20h59m17.1s"
                        "+44d31m44s" "Cygnus")
     = Py.ok "nebula_position_North.txt"%string.
Proof.
  split; [reflexivity|].
  destruct (report_filenames_are_distinct 5 5 _ _ eq_refl eq_refl)
    as [[f Hf] _].
  rewrite Hf. vm_compute in Hf. injection Hf as <-. reflexivity.
Defined.

(** X16: on the catalogue, at most one of the seven keywords that
    [display_nebula_info] tests occurs in a name, so the order of its tests
    is immaterial there; nebulae 1, 2, 3, 4, 8, 9 and 10 get the five
    standard lines, a two-line note and the closing rule, the other six
    only the standard lines and the rule. *)
Theorem display_nebula_info_notes (key : Z) (nebula : Nebula.t) :
  dict_getitem NEBULAE key = Some nebula ->
  (List.length
     (filter (fun word => PyStr.contains word (Nebula.name nebula))
        ["Orion"; "Ring"; "Dumbbell"; "Crab"; "Lagoon"; "Trifid"; "Helix"]%string)
   <= 1)%nat
  /\ List.length (display_nebula_info nebula)
     = if existsb (Z.eqb key) [1; 2; 3; 4; 8; 9; 10] then 8%nat else 6%nat.
Proof.
  intros H. apply dict_getitem_In in H. cbn [NEBULAE In] in H.
  repeat (destruct H as [[= <- <-]|H]; [split; vm_compute; lia|]).
  contradiction.
Qed.

Lemma display_nebula_info_notes_witness :
  dict_getitem NEBULAE 11
  = Some (Nebula.mk "Owl Nebula (M97)" "11h14m47.734s" "+55d01m08.50s"
            "Ursa Major")
  /\ List.length
       (display_nebula_info
          (Nebula.mk "Owl Nebula (M97)" "11h14m47.734s" "+55d01m08.50s"
             "Ursa Major")) = 6%nat.
Proof.
  split; [reflexivity|].
  exact (proj2 (display_nebula_info_notes 11 _ eq_refl)).
Defined.

(** ** Yes and no, east and west *)

Lemma lower_is_y (c : ascii) :
  Ascii.eqb (Py.lower c) "y" = Ascii.eqb c "y" || Ascii.eqb c "Y".
Proof. destruct c as [[] [] [] [] [] [] [] []]; reflexivity. Qed.

Lemma map_lower_cons (c : ascii) (s : string) :
  Py.map_lower (String c s) = String (Py.lower c) (Py.map_lower s).
Proof. reflexivity. Qed.

(** X17: a yes/no question of [main] is answered yes by "y" or "Y" with any
    whitespace around it, and by nothing else: "yes" does not save the
    report, nor start another round. *)
Theorem said_yes_iff (line : string) :
  said_yes line = true
  <-> Py.strip line = "y"%string \/ Py.strip line = "Y"%string.
Proof.
  unfold said_yes, PyStr.lower.
  destruct (Py.strip line) as [|c [|c' s]].
  - cbn. split; [discriminate|intros [H|H]; discriminate].
  - rewrite map_lower_cons. cbn [Py.map_lower list_ascii_of_string List.map
                                   string_of_list_ascii String.eqb].
    rewrite lower_is_y.
    destruct (Ascii.eqb_spec c "y") as [->|Hy]; [cbn; tauto|].
    destruct (Ascii.eqb_spec c "Y") as [->|HY]; [cbn; tauto|].
    cbn. split; [discriminate|]. intros [[= H]|[= H]]; contradiction.
  - rewrite !map_lower_cons. cbn [String.eqb].
    destruct (Ascii.eqb (Py.lower c) "y"); cbn;
      (split; [discriminate|intros [H|H]; discriminate]).
Qed.

Lemma round_half_even_nonneg (m : positive) (e : Z) :
  0 <= Py.round_half_even m e.
Proof.
  unfold Py.round_half_even. destruct e as [|p|p].
  - lia.
  - assert (0 < 2 ^ Zpos p) by (apply Z.pow_pos_nonneg; lia). nia.
  - assert (Hd : 0 < 2 ^ Zpos p) by (apply Z.pow_pos_nonneg; lia).
    assert (0 <= Zpos m / 2 ^ Zpos p) by (apply Z.div_pos; lia).
    destruct (2 * (Zpos m mod 2 ^ Zpos p) ?= 2 ^ Zpos p);
      [destruct (Z.even _)| |]; lia.
Qed.

Lemma str_of_int_no_sign (n : Z) :
  0 <= n -> exists c r, PyStr.str_of_int n = String c r /\ c <> "-"%char.
Proof.
  intros Hn. unfold PyStr.str_of_int.
  destruct n as [|p|p]; [exists "0"%char, EmptyString; split; [reflexivity|discriminate]| |lia].
  cbn [Z.to_int NilZero.string_of_int].
  unfold NilZero.string_of_uint.
  destruct (Pos.to_uint p); cbn [NilEmpty.string_of_uint];
    eexists; eexists; (split; [reflexivity|discriminate]).
Qed.

Lemma format_f_no_sign (d : nat) (x : float) (rest : string) :
  (exists m e, Prim2SF x = S754_finite false m e)
  \/ Prim2SF x = S754_infinity false ->
  String.prefix "-" (PyStr.format_f d x ++ rest) = false.
Proof.
  unfold PyStr.format_f. intros [(m & e & ->)| ->]; [|reflexivity].
  destruct (str_of_int_no_sign
              (Py.round_half_even (m * Pos.of_nat (10 ^ d)) e / 10 ^ Z.of_nat d))
    as (c & r & -> & Hc).
  { apply Z.div_pos; [apply round_half_even_nonneg|].
    apply Z.pow_pos_nonneg; lia. }
  cbn [append String.prefix].
  destruct (ascii_dec "-" c) as [E|_]; [congruence|reflexivity].
Qed.

(** X18: the longitude of the "Coordinates" line is the magnitude followed
    by the hemisphere: for [lon < 0] it is [abs lon] formatted with four
    decimals and " W", with no minus sign; otherwise [lon] itself and
    " E". *)
Theorem lon_display_hemisphere (lon : float) :
  (PrimFloat.ltb lon 0 = true ->
   lon_display lon = (PyStr.format_f 4 (abs lon) ++ " W")%string
   /\ String.prefix "-" (lon_display lon) = false)
  /\ (PrimFloat.ltb lon 0 = false ->
      lon_display lon = (PyStr.format_f 4 lon ++ " E")%string).
Proof.
  unfold lon_display. split; intros H; rewrite H; [|reflexivity].
  assert (Habs : (- lon)%float = abs lon
                 /\ ((exists m e, Prim2SF (abs lon) = S754_finite false m e)
                     \/ Prim2SF (abs lon) = S754_infinity false)).
  { rewrite ltb_spec in H. unfold SFltb in H.
    change (Prim2SF 0) with (S754_zero false) in H.
    split.
    - apply Prim2SF_inj. rewrite opp_spec, abs_spec.
      destruct (Prim2SF lon) as [s|s| |s m e]; cbn in H; try discriminate;
        destruct s; try discriminate; reflexivity.
    - rewrite abs_spec.
      destruct (Prim2SF lon) as [s|s| |s m e]; cbn in H; try discriminate;
        cbn; eauto. }
  destruct Habs as [-> Hpos]. split; [reflexivity|].
  now apply format_f_no_sign.
Qed.
